(** * Event taxonomy of the trading pipeline (core/event.py)

    A shallow embedding of the five event classes of [core/event.py] and of
    the Python object model they rely on: objects live in a heap, each with
    its class and its attribute dictionary; a constructor call allocates an
    object and runs the class's [__init__] on it; an attribute that is read
    and not there raises [AttributeError]. *)

From Stdlib Require Import ZArith NArith PrimFloat.
From stdpp Require Import gmap strings list.

Local Open Scope string_scope.

(** ** Values *)

(** An object's identity: its place in the heap. *)
Abbreviation loc := positive.

(** The values the events carry. [PyDatetime] stands for a timestamp,
    [PyUUID] for a [uuid.UUID], [PyRef] for a reference to an object. *)
Inductive PyVal : Type :=
| PyNone
| PyBool (b : bool)
| PyInt (z : Z)
| PyFloat (f : float)
| PyStr (s : string)
| PyDatetime (t : Z)
| PyUUID (u : N)
| PyRef (l : loc).

(** The classes of the module; each inherits from the empty class [Event]. *)
Inductive PyClass : Type :=
| MarketEvent
| ActionEvent
| SignalEvent
| OrderEvent
| FillEvent.

#[global] Instance PyClass_eq_dec : EqDecision PyClass.
Proof. solve_decision. Defined.

(** An instance: its class and its [__dict__]. *)
Record Obj : Type := mkObj {
  obj_class : PyClass;
  obj_dict : gmap string PyVal
}.

(** A printed line, [print(fmt % args)]: the format and the values it is
    applied to; the text is what [%] makes of them. *)
Record Line : Type := mkLine {
  line_format : string;
  line_args : list PyVal
}.

(** The interpreter's state: the heap, the identifiers the library hands
    out and what was printed. [uuid.uuid4] is library code: [urandom k] is
    the value its k-th call returns, that is, what the library makes of the
    k-th sixteen bytes it draws from the operating system (not the bytes
    themselves); [drawn] counts the calls made so far. *)
Record World : Type := mkWorld {
  heap : gmap loc Obj;
  urandom : nat -> N;
  drawn : nat;
  stdout : list Line
}.

Definition with_heap (w : World) (h : gmap loc Obj) : World :=
  {| heap := h; urandom := urandom w; drawn := drawn w; stdout := stdout w |}.

(** ** Exceptions and the interpreter monad *)

(** A raised exception: the name of its class and its argument. *)
Record PyExc : Type := Raise {
  exc_class : string;
  exc_detail : string
}.

Inductive Outcome (A : Type) : Type :=
| Ok (a : A)
| Err (e : PyExc).
Arguments Ok {A} a.
Arguments Err {A} e.

(** A computation runs on a world and leaves a world, also when it raises:
    nothing is rolled back. *)
Definition Py (A : Type) : Type := World -> Outcome A * World.

Definition ret {A} (a : A) : Py A := fun w => (Ok a, w).

Definition raise {A} (e : PyExc) : Py A := fun w => (Err e, w).

Definition bind {A B} (m : Py A) (k : A -> Py B) : Py B :=
  fun w =>
    match m w with
    | (Ok a, w') => k a w'
    | (Err e, w') => (Err e, w')
    end.

Declare Scope py_scope.
Delimit Scope py_scope with py.
Notation "x <- m ;; k" := (bind m (fun x => k))
  (at level 100, m at next level, right associativity) : py_scope.
Notation "m ;;; k" := (bind m (fun _ => k))
  (at level 100, right associativity) : py_scope.
Local Open Scope py_scope.

Definition AttributeError (name : string) : PyExc := Raise "AttributeError" name.
Definition TypeError (name : string) : PyExc := Raise "TypeError" name.

(** ** Primitive operations *)

(** [object.__new__(cls)]: a new instance with an empty dictionary, at a
    place no object occupies. *)
Definition new_object (c : PyClass) : Py loc :=
  fun w =>
    let l := fresh (dom (heap w)) in
    (Ok l, with_heap w (<[l := mkObj c ∅]> (heap w))).

(** [self.name = v] *)
Definition setattr (self : loc) (name : string) (v : PyVal) : Py unit :=
  fun w =>
    match heap w !! self with
    | Some o =>
        (Ok tt, with_heap w (<[self := mkObj (obj_class o) (<[name := v]> (obj_dict o))]> (heap w)))
    | None => (Err (AttributeError name), w)
    end.

(** [x.name] for a data attribute: the instance dictionary of the object
    [x] refers to; values that are not instances of the module's classes
    carry none of the attributes the module reads. *)
Definition getattr (x : PyVal) (name : string) : Py PyVal :=
  fun w =>
    match x with
    | PyRef l =>
        match heap w !! l with
        | Some o =>
            match obj_dict o !! name with
            | Some v => (Ok v, w)
            | None => (Err (AttributeError name), w)
            end
        | None => (Err (AttributeError name), w)
        end
    | _ => (Err (AttributeError name), w)
    end.

(** [uuid.uuid4()]: library code; the call returns the next identifier of
    the library, [urandom] at the number of calls made so far, and counts one
    call more. *)
Definition uuid4 : Py PyVal :=
  fun w =>
    (Ok (PyUUID (urandom w (drawn w))),
     {| heap := heap w; urandom := urandom w; drawn := S (drawn w); stdout := stdout w |}).

(** [print(fmt % args)] *)
Definition print (fmt : string) (args : list PyVal) : Py unit :=
  fun w =>
    (Ok tt,
     {| heap := heap w; urandom := urandom w; drawn := drawn w;
        stdout := stdout w ++ [mkLine fmt args] |}).

(** ** The classes *)

(** [MarketEvent.__init__(self)] *)
Definition MarketEvent_init (self : loc) : Py unit :=
  setattr self "type" (PyStr "MARKET").

(** [ActionEvent.__init__(self, symbol, action_type)] *)
Definition ActionEvent_init (self : loc) (symbol action_type : PyVal) : Py unit :=
  setattr self "type" (PyStr "ACTION") ;;;
  setattr self "symbol" symbol ;;;
  setattr self "action_type" action_type.

(** [SignalEvent.__init__(self, symbol, datetime, signal_type,
    order_type='MKT', limit_price=None, stop_loss=None, profit_target=None,
    stop_price=None, quantity=10000, strategy_id=1)]; an argument that has a
    default is [None] here when the call does not supply it. *)
Definition SignalEvent_init (self : loc) (symbol datetime signal_type : PyVal)
    (order_type limit_price stop_loss profit_target stop_price quantity
     strategy_id : option PyVal) : Py unit :=
  let order_type := default (PyStr "MKT") order_type in
  let limit_price := default PyNone limit_price in
  let stop_loss := default PyNone stop_loss in
  let profit_target := default PyNone profit_target in
  let stop_price := default PyNone stop_price in
  let quantity := default (PyInt 10000) quantity in
  let strategy_id := default (PyInt 1) strategy_id in
  setattr self "type" (PyStr "SIGNAL") ;;;
  setattr self "strategy_id" strategy_id ;;;
  setattr self "symbol" symbol ;;;
  setattr self "datetime" datetime ;;;
  setattr self "signal_type" signal_type ;;;
  setattr self "quantity" quantity ;;;
  setattr self "stop_loss" stop_loss ;;;
  setattr self "profit_target" profit_target ;;;
  setattr self "limit_price" limit_price ;;;
  setattr self "stop_price" stop_price ;;;
  setattr self "order_type" order_type.

(** [OrderEvent.__init__(self, signal, quantity, direction)] *)
Definition OrderEvent_init (self : loc) (signal quantity direction : PyVal) : Py unit :=
  setattr self "type" (PyStr "ORDER") ;;;
  order_id <- uuid4 ;;
  setattr self "order_id" order_id ;;;
  setattr self "direction" direction ;;;
  setattr self "quantity" quantity ;;;
  symbol <- getattr signal "symbol" ;;
  setattr self "symbol" symbol ;;;
  order_type <- getattr signal "order_type" ;;
  setattr self "order_type" order_type ;;;
  stop_loss <- getattr signal "stop_loss" ;;
  setattr self "stop_loss" stop_loss ;;;
  profit_target <- getattr signal "profit_target" ;;
  setattr self "profit_target" profit_target ;;;
  limit_price <- getattr signal "limit_price" ;;
  setattr self "limit_price" limit_price ;;;
  stop_price <- getattr signal "stop_price" ;;
  setattr self "stop_price" stop_price ;;;
  setattr self "entry_price" PyNone ;;;
  setattr self "exit_price" PyNone ;;;
  setattr self "entry_time" PyNone ;;;
  setattr self "exit_time" PyNone ;;;
  setattr self "profit" PyNone.

(** [FillEvent.calculate_commission(self)] *)
Definition FillEvent_calculate_commission (self : loc) : Py PyVal :=
  ret (PyInt 0).

(** [FillEvent.__init__(self, order, timeindex, price, symbol, exchange,
    quantity, direction, commission=None)] *)
Definition FillEvent_init (self : loc)
    (order timeindex price symbol exchange quantity direction : PyVal)
    (commission : option PyVal) : Py unit :=
  let commission := default PyNone commission in
  setattr self "type" (PyStr "FILL") ;;;
  fill_id <- uuid4 ;;
  setattr self "fill_id" fill_id ;;;
  setattr self "order" order ;;;
  setattr self "timeindex" timeindex ;;;
  setattr self "price" price ;;;
  setattr self "symbol" symbol ;;;
  setattr self "exchange" exchange ;;;
  setattr self "quantity" quantity ;;;
  setattr self "direction" direction ;;;
  match commission with
  | PyNone =>
      c <- FillEvent_calculate_commission self ;;
      setattr self "commission" c
  | _ => setattr self "commission" commission
  end.

(** ** Calling a class

    [C(args)] allocates an instance, runs [C.__init__] on it and gives the
    instance back. *)

Definition MarketEvent_new : Py PyVal :=
  self <- new_object MarketEvent ;;
  MarketEvent_init self ;;;
  ret (PyRef self).

Definition ActionEvent_new (symbol action_type : PyVal) : Py PyVal :=
  self <- new_object ActionEvent ;;
  ActionEvent_init self symbol action_type ;;;
  ret (PyRef self).

Definition SignalEvent_new (symbol datetime signal_type : PyVal)
    (order_type limit_price stop_loss profit_target stop_price quantity
     strategy_id : option PyVal) : Py PyVal :=
  self <- new_object SignalEvent ;;
  SignalEvent_init self symbol datetime signal_type order_type limit_price
    stop_loss profit_target stop_price quantity strategy_id ;;;
  ret (PyRef self).

Definition OrderEvent_new (signal quantity direction : PyVal) : Py PyVal :=
  self <- new_object OrderEvent ;;
  OrderEvent_init self signal quantity direction ;;;
  ret (PyRef self).

Definition FillEvent_new
    (order timeindex price symbol exchange quantity direction : PyVal)
    (commission : option PyVal) : Py PyVal :=
  self <- new_object FillEvent ;;
  FillEvent_init self order timeindex price symbol exchange quantity
    direction commission ;;;
  ret (PyRef self).

(** The discriminant each class writes into [type]. *)
Definition class_tag (c : PyClass) : string :=
  match c with
  | MarketEvent => "MARKET"
  | ActionEvent => "ACTION"
  | SignalEvent => "SIGNAL"
  | OrderEvent => "ORDER"
  | FillEvent => "FILL"
  end.

(** ** Methods and their lookup *)

(** [OrderEvent.print_order(self)] *)
Definition OrderEvent_print_order (self : loc) : Py PyVal :=
  symbol <- getattr (PyRef self) "symbol" ;;
  order_type <- getattr (PyRef self) "order_type" ;;
  quantity <- getattr (PyRef self) "quantity" ;;
  direction <- getattr (PyRef self) "direction" ;;
  print "Order: Symbol=%s, Type=%s, Quantity=%s, Direction=%s"
    [symbol; order_type; quantity; direction] ;;;
  ret PyNone.

(** [C.__init__] applied to positional arguments. A call that names its
    arguments is the positional call with the skipped defaults written out.
    Too few or too many arguments raise [TypeError]. *)
Definition apply_init (c : PyClass) (self : loc) (args : list PyVal) : Py unit :=
  match c with
  | MarketEvent =>
      match args with
      | [] => MarketEvent_init self
      | _ => raise (TypeError "__init__")
      end
  | ActionEvent =>
      match args with
      | [symbol; action_type] => ActionEvent_init self symbol action_type
      | _ => raise (TypeError "__init__")
      end
  | SignalEvent =>
      match args with
      | symbol :: datetime :: signal_type :: opt =>
          if decide (length opt <= 7)
          then SignalEvent_init self symbol datetime signal_type
                 (opt !! 0) (opt !! 1) (opt !! 2) (opt !! 3) (opt !! 4)
                 (opt !! 5) (opt !! 6)
          else raise (TypeError "__init__")
      | _ => raise (TypeError "__init__")
      end
  | OrderEvent =>
      match args with
      | [signal; quantity; direction] => OrderEvent_init self signal quantity direction
      | _ => raise (TypeError "__init__")
      end
  | FillEvent =>
      match args with
      | order :: timeindex :: price :: symbol :: exchange :: quantity :: direction :: opt =>
          if decide (length opt <= 1)
          then FillEvent_init self order timeindex price symbol exchange
                 quantity direction (opt !! 0)
          else raise (TypeError "__init__")
      | _ => raise (TypeError "__init__")
      end
  end.

(** [C(args)] with positional arguments. *)
Definition construct (c : PyClass) (args : list PyVal) : Py PyVal :=
  self <- new_object c ;;
  apply_init c self args ;;;
  ret (PyRef self).

(** The functions a class body defines, by name. [Event] defines none.
    What every class inherits from [object] ([__setattr__], [__delattr__],
    [__eq__], [__repr__], ...), all of it spelled with two leading
    underscores, is not modelled, [__init__] apart, which each class
    defines: [class_method] and [call_method] speak for the code at
    [__init__] and at the names without two leading underscores, and the
    properties use them at those names only (see [inherited_name]). *)
Inductive Method : Type :=
| m_init
| m_print_order
| m_calculate_commission.

Definition class_method (c : PyClass) (name : string) : option Method :=
  if decide (name = "__init__") then Some m_init
  else match c with
       | OrderEvent =>
           if decide (name = "print_order") then Some m_print_order else None
       | FillEvent =>
           if decide (name = "calculate_commission")
           then Some m_calculate_commission else None
       | _ => None
       end.

Definition apply_method (m : Method) (c : PyClass) (self : loc)
    (args : list PyVal) : Py PyVal :=
  match m with
  | m_init => apply_init c self args ;;; ret PyNone
  | m_print_order =>
      match args with
      | [] => OrderEvent_print_order self
      | _ => raise (TypeError "print_order")
      end
  | m_calculate_commission =>
      match args with
      | [] => FillEvent_calculate_commission self
      | _ => raise (TypeError "calculate_commission")
      end
  end.

(** [self.name(args)], for [name] other than those inherited from
    [object]: the instance dictionary is searched first, and what it holds is
    a value, not a function: calling it raises [TypeError]; then the class; a
    name found in neither raises [AttributeError]. *)
Definition call_method (self : loc) (name : string) (args : list PyVal) : Py PyVal :=
  fun w =>
    match heap w !! self with
    | Some o =>
        match obj_dict o !! name with
        | Some _ => (Err (TypeError name), w)
        | None =>
            match class_method (obj_class o) name with
            | Some m => apply_method m (obj_class o) self args w
            | None => (Err (AttributeError name), w)
            end
        end
    | None => (Err (AttributeError name), w)
    end.

(** What a client of the module can do with it: call a class, call a
    method by name. *)
Inductive Call : Type :=
| New (c : PyClass) (args : list PyVal)
| Invoke (self : loc) (name : string) (args : list PyVal).

Definition exec (c : Call) : Py PyVal :=
  match c with
  | New c args => construct c args
  | Invoke self name args => call_method self name args
  end.

(** A client's run: one call after the other, an exception caught where it
    is raised. *)
Definition run (cs : list Call) (w : World) : World :=
  foldl (fun w c => (exec c w).2) w cs.

(** ** Reading the heap *)

(** The value of attribute [name] of the object at [l], when there is one. *)
Definition attr (w : World) (l : loc) (name : string) : option PyVal :=
  o ← heap w !! l; obj_dict o !! name.

Definition class_of (w : World) (l : loc) : option PyClass :=
  obj_class <$> heap w !! l.

(** * The vocabulary of the properties *)

(** ** The calls the model speaks for *)

(** A name with two leading underscores other than [__init__]: what a
    class inherits from [object] is among these names, and [call_method]
    does not model it. *)
Definition inherited_name (name : string) : bool :=
  String.prefix "__" name && negb (String.eqb name "__init__").

(** A call the model speaks for: any class call, and any method call whose
    name is [__init__] or has no two leading underscores ([print_order],
    [calculate_commission], the name of an attribute, a name that nothing
    defines). *)
Definition own_call (c : Call) : Prop :=
  match c with
  | New _ _ => True
  | Invoke _ name _ => inherited_name name = false
  end.

(** ** The dictionary each constructor leaves

    The assignments of each [__init__], in the order the source makes them,
    the last one outermost. *)

Definition MarketEvent_dict : gmap string PyVal :=
  <["type" := PyStr "MARKET"]> ∅.

Definition ActionEvent_dict (symbol action_type : PyVal) : gmap string PyVal :=
  <["action_type" := action_type]> (<["symbol" := symbol]>
  (<["type" := PyStr "ACTION"]> ∅)).

Definition SignalEvent_dict (symbol datetime signal_type : PyVal)
    (order_type limit_price stop_loss profit_target stop_price quantity
     strategy_id : option PyVal) : gmap string PyVal :=
  <["order_type" := default (PyStr "MKT") order_type]>
  (<["stop_price" := default PyNone stop_price]>
  (<["limit_price" := default PyNone limit_price]>
  (<["profit_target" := default PyNone profit_target]>
  (<["stop_loss" := default PyNone stop_loss]>
  (<["quantity" := default (PyInt 10000) quantity]>
  (<["signal_type" := signal_type]>
  (<["datetime" := datetime]>
  (<["symbol" := symbol]>
  (<["strategy_id" := default (PyInt 1) strategy_id]>
  (<["type" := PyStr "SIGNAL"]> ∅)))))))))).

Definition OrderEvent_dict (order_id direction quantity symbol order_type
    stop_loss profit_target limit_price stop_price : PyVal) : gmap string PyVal :=
  <["profit" := PyNone]>
  (<["exit_time" := PyNone]>
  (<["entry_time" := PyNone]>
  (<["exit_price" := PyNone]>
  (<["entry_price" := PyNone]>
  (<["stop_price" := stop_price]>
  (<["limit_price" := limit_price]>
  (<["profit_target" := profit_target]>
  (<["stop_loss" := stop_loss]>
  (<["order_type" := order_type]>
  (<["symbol" := symbol]>
  (<["quantity" := quantity]>
  (<["direction" := direction]>
  (<["order_id" := order_id]>
  (<["type" := PyStr "ORDER"]> ∅)))))))))))))).

(** The commission a fill stores: what it was given, or 0 when it was
    given none. *)
Definition stored_commission (commission : option PyVal) : PyVal :=
  match default PyNone commission with
  | PyNone => PyInt 0
  | c => c
  end.

Definition FillEvent_dict (fill_id order timeindex price symbol exchange
    quantity direction commission : PyVal) : gmap string PyVal :=
  <["commission" := commission]>
  (<["direction" := direction]>
  (<["quantity" := quantity]>
  (<["exchange" := exchange]>
  (<["symbol" := symbol]>
  (<["price" := price]>
  (<["timeindex" := timeindex]>
  (<["order" := order]>
  (<["fill_id" := fill_id]>
  (<["type" := PyStr "FILL"]> ∅))))))))).

(** ** Instances and their attributes *)

(** The attributes [OrderEvent.__init__] copies from the signal. *)
Definition signal_copied : list string :=
  ["symbol"; "order_type"; "stop_loss"; "profit_target"; "limit_price";
   "stop_price"].

(** The attributes [OrderEvent.__init__] sets to [None]. *)
Definition lifecycle : list string :=
  ["entry_price"; "exit_price"; "entry_time"; "exit_time"; "profit"].

(** The attributes the [__init__] of each class assigns. *)
Definition class_attrs (c : PyClass) : list string :=
  match c with
  | MarketEvent => ["type"]
  | ActionEvent => ["type"; "symbol"; "action_type"]
  | SignalEvent =>
      ["type"; "strategy_id"; "symbol"; "datetime"; "signal_type"; "quantity";
       "stop_loss"; "profit_target"; "limit_price"; "stop_price"; "order_type"]
  | OrderEvent =>
      ["type"; "order_id"; "direction"; "quantity"] ++ signal_copied ++ lifecycle
  | FillEvent =>
      ["type"; "fill_id"; "order"; "timeindex"; "price"; "symbol"; "exchange";
       "quantity"; "direction"; "commission"]
  end.

(** An instance of class [c] as its constructor leaves it: the attributes
    it carries are those [c.__init__] assigns. *)
Definition instance_of (c : PyClass) (o : Obj) : Prop :=
  obj_class o = c /\
  dom (obj_dict o) = list_to_set (class_attrs c).

(** ** The discriminant *)

(** The object at [l] is of class [c] and its [type] is the tag of [c]. *)
Definition has_type (l : loc) (c : PyClass) (w : World) : Prop :=
  class_of w l = Some c /\ attr w l "type" = Some (PyStr (class_tag c)).

(** A computation keeps [P], whether it returns or raises. *)
Definition preserves {A} (P : World -> Prop) (m : Py A) : Prop :=
  forall w, P w -> P (m w).2.

(** [m], run on [w], returns a new instance of [c] whose [type] is the tag
    of [c] and whose attributes named in [fields] have the values given
    there. *)
Definition builds (m : Py PyVal) (w : World) (c : PyClass)
    (fields : list (string * option PyVal)) : Prop :=
  exists l w',
    m w = (Ok (PyRef l), w') /\
    heap w !! l = None /\
    has_type l c w' /\
    Forall (fun f => attr w' l f.1 = f.2) fields.

(** ** What holds of every object the module has built *)

(** An object as the module's own code can leave it: its [type], if set,
    is the tag of its class; its [commission], if set, is not [None]; its
    [order_id] and [fill_id], if set, are UUIDs; its lifecycle attributes,
    if set, are [None]. *)
Definition sound (o : Obj) : Prop :=
  (forall v, obj_dict o !! "type" = Some v -> v = PyStr (class_tag (obj_class o))) /\
  (forall v, obj_dict o !! "commission" = Some v -> v ≠ PyNone) /\
  (forall n v, n = "order_id" \/ n = "fill_id" ->
     obj_dict o !! n = Some v -> exists u, v = PyUUID u) /\
  (forall n v, n ∈ lifecycle -> obj_dict o !! n = Some v -> v = PyNone).

Definition heap_sound (w : World) : Prop :=
  forall l o, heap w !! l = Some o -> sound o.

(** What [self.n = v] must respect for objects of class [c] to stay sound. *)
Definition fits (c : PyClass) (n : string) (v : PyVal) : Prop :=
  (n = "type" -> v = PyStr (class_tag c)) /\
  (n = "commission" -> v ≠ PyNone) /\
  (n = "order_id" \/ n = "fill_id" -> exists u, v = PyUUID u) /\
  (n ∈ lifecycle -> v = PyNone).

(** Every object is sound and the object at [self] is of class [c]. *)
Definition sound_at (self : loc) (c : PyClass) (w : World) : Prop :=
  heap_sound w /\ class_of w self = Some c.

(** [m], run on [w], returns a new object that is an instance of [c]:
    it carries the attributes [c.__init__] assigns and no other. *)
Definition returns_instance (m : Py PyVal) (w : World) (c : PyClass) : Prop :=
  exists l w' o,
    m w = (Ok (PyRef l), w') /\
    heap w' !! l = Some o /\
    instance_of c o.

(** The object at [l] is [o]. *)
Definition holds_at (l : loc) (o : Obj) (w : World) : Prop :=
  heap w !! l = Some o.

(** The object at [l] is an instance of [c]. *)
Definition is_instance (l : loc) (c : PyClass) (w : World) : Prop :=
  exists o, heap w !! l = Some o /\ instance_of c o.

(** ** The arguments a class takes

    The fewest and the most positional arguments of each [__init__], [self]
    apart. *)
Definition min_args (c : PyClass) : nat :=
  match c with
  | MarketEvent => 0
  | ActionEvent => 2
  | SignalEvent => 3
  | OrderEvent => 3
  | FillEvent => 7
  end.

Definition max_args (c : PyClass) : nat :=
  match c with
  | MarketEvent => 0
  | ActionEvent => 2
  | SignalEvent => 10
  | OrderEvent => 3
  | FillEvent => 8
  end.

(** ** A run of the module: the GOOG limit order *)

(** An interpreter that has built nothing yet. *)
Definition boot : World :=
  {| heap := ∅; urandom := N.of_nat; drawn := 0; stdout := [] |}.

(** [SignalEvent("GOOG", datetime, "LONG", order_type="LMT",
    limit_price=100.50, quantity=10000)] *)
Definition goog_signal (datetime : PyVal) : Py PyVal :=
  SignalEvent_new (PyStr "GOOG") datetime (PyStr "LONG") (Some (PyStr "LMT"))
    (Some (PyFloat 100.5)) None None None (Some (PyInt 10000)) None.

(** [OrderEvent(signal, 50, "BUY")] *)
Definition goog_order (signal : PyVal) : Py PyVal :=
  OrderEvent_new signal (PyInt 50) (PyStr "BUY").

(** [SignalEvent("GOOG", 0, "LONG", order_type="LMT")] and
    [SignalEvent("GOOG", 0, "LONG", order_type="STP")]: neither price. *)
Definition bare_signal (order_type : string) : Py PyVal :=
  SignalEvent_new (PyStr "GOOG") (PyDatetime 0) (PyStr "LONG")
    (Some (PyStr order_type)) None None None None None None.

(** The state after [goog_signal], and after [goog_order] on its result;
    the signal is the first object built, the order the second. *)
Definition with_signal : World := (goog_signal (PyDatetime 0) boot).2.
Definition with_order : World := (goog_order (PyRef 1%positive) with_signal).2.

(** The signal and the order of that run, as the heap holds them. *)
Definition the_signal : Obj :=
  mkObj SignalEvent
    (SignalEvent_dict (PyStr "GOOG") (PyDatetime 0) (PyStr "LONG")
       (Some (PyStr "LMT")) (Some (PyFloat 100.5)) None None None
       (Some (PyInt 10000)) None).

Definition the_order : Obj :=
  mkObj OrderEvent
    (OrderEvent_dict (PyUUID 0) (PyStr "BUY") (PyInt 50) (PyStr "GOOG")
       (PyStr "LMT") PyNone PyNone (PyFloat 100.5) PyNone).

(** [ActionEvent("GOOG", "CLOSE_ALL")] built first, and the object it
    leaves: an event that has a [symbol] and none of the other attributes an
    order reads. *)
Definition with_action : World :=
  (ActionEvent_new (PyStr "GOOG") (PyStr "CLOSE_ALL") boot).2.

Definition the_action : Obj :=
  mkObj ActionEvent (ActionEvent_dict (PyStr "GOOG") (PyStr "CLOSE_ALL")).

(** The whole scenario as a client's calls: build the signal, build the
    order, then [order.record_entry(100.25, 1)] and
    [order.record_exit(105.00, 2)]. *)
Definition goog_calls : list Call :=
  [New SignalEvent
     [PyStr "GOOG"; PyDatetime 0; PyStr "LONG"; PyStr "LMT"; PyFloat 100.5;
      PyNone; PyNone; PyNone; PyInt 10000];
   New OrderEvent [PyRef 1%positive; PyInt 50; PyStr "BUY"];
   Invoke 2%positive "record_entry" [PyFloat 100.25; PyDatetime 1];
   Invoke 2%positive "record_exit" [PyFloat 105; PyDatetime 2]].

(** More calls on the run: a fill of the order, a second [__init__] on the
    order, an order from [None]. *)
Definition more_calls : list Call :=
  (goog_calls ++
   [New FillEvent
      [PyRef 2%positive; PyDatetime 1; PyFloat 100.25; PyStr "GOOG";
       PyStr "ARCA"; PyInt 50; PyStr "BUY"];
    Invoke 2%positive "__init__" [PyRef 1%positive; PyInt 20; PyStr "SELL"];
    New OrderEvent [PyNone; PyInt 50; PyStr "BUY"];
    Invoke 3%positive "calculate_commission" []])%list.

(** * Properties *)

(** ** Running a computation step by step *)

Section Stepping.
Context {B : Type}.

Lemma bind_ret {A} (a : A) (k : A -> Py B) (w : World) :
  bind (ret a) k w = k a w.
Proof. reflexivity. Qed.

Lemma bind_assoc {A A'} (m : Py A) (f : A -> Py A') (g : A' -> Py B) (w : World) :
  bind (bind m f) g w = bind m (fun x => bind (f x) g) w.
Proof. unfold bind. destruct (m w) as [[a|e] w']; reflexivity. Qed.

Lemma bind_new_object (c : PyClass) (k : loc -> Py B) (w : World) :
  bind (new_object c) k w =
  k (fresh (dom (heap w)))
    (mkWorld (<[fresh (dom (heap w)) := mkObj c ∅]> (heap w))
       (urandom w) (drawn w) (stdout w)).
Proof. reflexivity. Qed.

Lemma bind_setattr (l : loc) (n : string) (v : PyVal) (k : unit -> Py B)
    (h : gmap loc Obj) u d s (c : PyClass) (dict : gmap string PyVal) :
  bind (setattr l n v) k (mkWorld (<[l := mkObj c dict]> h) u d s) =
  k tt (mkWorld (<[l := mkObj c (<[n := v]> dict)]> h) u d s).
Proof.
  unfold bind, setattr, with_heap; simpl.
  rewrite lookup_insert_eq; simpl. by rewrite insert_insert_eq.
Qed.

Lemma bind_uuid4 (k : PyVal -> Py B) (h : gmap loc Obj) u d s :
  bind uuid4 k (mkWorld h u d s) = k (PyUUID (u d)) (mkWorld h u (S d) s).
Proof. reflexivity. Qed.

Lemma bind_getattr (l : loc) (n : string) (v : PyVal) (o : Obj)
    (k : PyVal -> Py B) (h : gmap loc Obj) u d s :
  h !! l = Some o -> obj_dict o !! n = Some v ->
  bind (getattr (PyRef l) n) k (mkWorld h u d s) = k v (mkWorld h u d s).
Proof. intros Hl Hn. unfold bind, getattr; simpl. by rewrite Hl, Hn. Qed.

End Stepping.

Lemma setattr_last (l : loc) (n : string) (v : PyVal)
    (h : gmap loc Obj) u d s (c : PyClass) (dict : gmap string PyVal) :
  setattr l n v (mkWorld (<[l := mkObj c dict]> h) u d s) =
  (Ok tt, mkWorld (<[l := mkObj c (<[n := v]> dict)]> h) u d s).
Proof.
  unfold setattr, with_heap; simpl.
  rewrite lookup_insert_eq; simpl. by rewrite insert_insert_eq.
Qed.

Lemma fresh_loc_None (h : gmap loc Obj) : h !! fresh (dom h) = None.
Proof. apply not_elem_of_dom, is_fresh. Qed.

Lemma fresh_loc_ne (h : gmap loc Obj) (l : loc) (o : Obj) :
  h !! l = Some o -> fresh (dom h) ≠ l.
Proof. intros Hl Heq. rewrite <- Heq, fresh_loc_None in Hl. discriminate. Qed.

(** One step of a computation whose next statement reads no attribute. *)
Ltac py_step :=
  first [ rewrite bind_assoc | rewrite bind_new_object | rewrite bind_setattr
        | rewrite bind_uuid4 | rewrite bind_ret | rewrite setattr_last ].

(** ** What each constructor builds *)

Lemma MarketEvent_new_run (w : World) :
  let l := fresh (dom (heap w)) in
  MarketEvent_new w =
  (Ok (PyRef l), with_heap w (<[l := mkObj MarketEvent MarketEvent_dict]> (heap w))).
Proof.
  unfold MarketEvent_new, MarketEvent_init. by repeat py_step.
Qed.

Lemma ActionEvent_new_run (symbol action_type : PyVal) (w : World) :
  let l := fresh (dom (heap w)) in
  ActionEvent_new symbol action_type w =
  (Ok (PyRef l),
   with_heap w (<[l := mkObj ActionEvent (ActionEvent_dict symbol action_type)]> (heap w))).
Proof.
  unfold ActionEvent_new, ActionEvent_init. by repeat py_step.
Qed.

Lemma SignalEvent_new_run (symbol datetime signal_type : PyVal)
    (order_type limit_price stop_loss profit_target stop_price quantity
     strategy_id : option PyVal) (w : World) :
  let l := fresh (dom (heap w)) in
  SignalEvent_new symbol datetime signal_type order_type limit_price stop_loss
    profit_target stop_price quantity strategy_id w =
  (Ok (PyRef l),
   with_heap w (<[l := mkObj SignalEvent
     (SignalEvent_dict symbol datetime signal_type order_type limit_price
        stop_loss profit_target stop_price quantity strategy_id)]> (heap w))).
Proof.
  unfold SignalEvent_new, SignalEvent_init. by repeat py_step.
Qed.

(** One step that reads attribute [n] of the object at [l], which is not
    the object under construction. *)
Ltac py_read l n :=
  erewrite (bind_getattr l n);
  [ | rewrite lookup_insert_ne; [ eassumption | eapply fresh_loc_ne; eassumption ]
    | eassumption ].

Lemma OrderEvent_new_run (ls : loc) (s : Obj) (quantity direction : PyVal)
    (symbol order_type stop_loss profit_target limit_price stop_price : PyVal)
    (w : World) :
  heap w !! ls = Some s ->
  obj_dict s !! "symbol" = Some symbol ->
  obj_dict s !! "order_type" = Some order_type ->
  obj_dict s !! "stop_loss" = Some stop_loss ->
  obj_dict s !! "profit_target" = Some profit_target ->
  obj_dict s !! "limit_price" = Some limit_price ->
  obj_dict s !! "stop_price" = Some stop_price ->
  let l := fresh (dom (heap w)) in
  OrderEvent_new (PyRef ls) quantity direction w =
  (Ok (PyRef l),
   mkWorld
     (<[l := mkObj OrderEvent
        (OrderEvent_dict (PyUUID (urandom w (drawn w))) direction quantity
           symbol order_type stop_loss profit_target limit_price stop_price)]>
        (heap w))
     (urandom w) (S (drawn w)) (stdout w)).
Proof.
  intros Hs Hsym Hot Hsl Hpt Hlp Hsp.
  unfold OrderEvent_new, OrderEvent_init. repeat py_step.
  py_read ls "symbol". repeat py_step.
  py_read ls "order_type". repeat py_step.
  py_read ls "stop_loss". repeat py_step.
  py_read ls "profit_target". repeat py_step.
  py_read ls "limit_price". repeat py_step.
  py_read ls "stop_price". repeat py_step.
  done.
Qed.

Lemma FillEvent_new_run
    (order timeindex price symbol exchange quantity direction : PyVal)
    (commission : option PyVal) (w : World) :
  let l := fresh (dom (heap w)) in
  FillEvent_new order timeindex price symbol exchange quantity direction
    commission w =
  (Ok (PyRef l),
   mkWorld
     (<[l := mkObj FillEvent
        (FillEvent_dict (PyUUID (urandom w (drawn w))) order timeindex price
           symbol exchange quantity direction (stored_commission commission))]>
        (heap w))
     (urandom w) (S (drawn w)) (stdout w)).
Proof.
  unfold FillEvent_new, FillEvent_init, FillEvent_calculate_commission.
  destruct commission as [[]|]; simpl; by repeat py_step.
Qed.

(** ** Reading what was built *)

Lemma attr_insert_eq (l : loc) (c : PyClass) (dict : gmap string PyVal)
    (h : gmap loc Obj) u d s (n : string) :
  attr (mkWorld (<[l := mkObj c dict]> h) u d s) l n = dict !! n.
Proof. unfold attr; simpl. by rewrite lookup_insert_eq. Qed.

Lemma attr_lookup (w : World) (l : loc) (o : Obj) (n : string) :
  heap w !! l = Some o -> attr w l n = obj_dict o !! n.
Proof. intros Hl. unfold attr. by rewrite Hl. Qed.

Lemma class_of_insert_eq (l : loc) (o : Obj) (h : gmap loc Obj) u d s :
  class_of (mkWorld (<[l := o]> h) u d s) l = Some (obj_class o).
Proof. unfold class_of; simpl. by rewrite lookup_insert_eq. Qed.

(** ** Instances *)

Lemma instance_of_has (c : PyClass) (o : Obj) (n : string) :
  instance_of c o -> n ∈ class_attrs c -> is_Some (obj_dict o !! n).
Proof.
  intros [_ Hdom] Hn. apply elem_of_dom. rewrite Hdom.
  by apply elem_of_list_to_set.
Qed.

Lemma instance_of_lacks (c : PyClass) (o : Obj) (n : string) :
  instance_of c o -> n ∉ class_attrs c -> obj_dict o !! n = None.
Proof.
  intros [_ Hdom] Hn. apply not_elem_of_dom. rewrite Hdom.
  by rewrite elem_of_list_to_set.
Qed.

Lemma SignalEvent_copied (o : Obj) :
  instance_of SignalEvent o ->
  exists symbol order_type stop_loss profit_target limit_price stop_price,
    obj_dict o !! "symbol" = Some symbol /\
    obj_dict o !! "order_type" = Some order_type /\
    obj_dict o !! "stop_loss" = Some stop_loss /\
    obj_dict o !! "profit_target" = Some profit_target /\
    obj_dict o !! "limit_price" = Some limit_price /\
    obj_dict o !! "stop_price" = Some stop_price.
Proof.
  intros Hinst.
  destruct (instance_of_has _ _ "symbol" Hinst) as [v1 H1]; [set_solver|].
  destruct (instance_of_has _ _ "order_type" Hinst) as [v2 H2]; [set_solver|].
  destruct (instance_of_has _ _ "stop_loss" Hinst) as [v3 H3]; [set_solver|].
  destruct (instance_of_has _ _ "profit_target" Hinst) as [v4 H4]; [set_solver|].
  destruct (instance_of_has _ _ "limit_price" Hinst) as [v5 H5]; [set_solver|].
  destruct (instance_of_has _ _ "stop_price" Hinst) as [v6 H6]; [set_solver|].
  by exists v1, v2, v3, v4, v5, v6.
Qed.

Lemma MarketEvent_dict_instance :
  instance_of MarketEvent (mkObj MarketEvent MarketEvent_dict).
Proof.
  split; [done|]. unfold MarketEvent_dict; simpl.
  rewrite !dom_insert_L, dom_empty_L. set_solver.
Qed.

Lemma ActionEvent_dict_instance (symbol action_type : PyVal) :
  instance_of ActionEvent (mkObj ActionEvent (ActionEvent_dict symbol action_type)).
Proof.
  split; [done|]. unfold ActionEvent_dict; simpl.
  rewrite !dom_insert_L, dom_empty_L. set_solver.
Qed.

Lemma SignalEvent_dict_instance (symbol datetime signal_type : PyVal)
    (order_type limit_price stop_loss profit_target stop_price quantity
     strategy_id : option PyVal) :
  instance_of SignalEvent (mkObj SignalEvent
    (SignalEvent_dict symbol datetime signal_type order_type limit_price
       stop_loss profit_target stop_price quantity strategy_id)).
Proof.
  split; [done|]. unfold SignalEvent_dict; simpl.
  rewrite !dom_insert_L, dom_empty_L. set_solver.
Qed.

Lemma OrderEvent_dict_instance (order_id direction quantity symbol order_type
    stop_loss profit_target limit_price stop_price : PyVal) :
  instance_of OrderEvent (mkObj OrderEvent
    (OrderEvent_dict order_id direction quantity symbol order_type stop_loss
       profit_target limit_price stop_price)).
Proof.
  split; [done|]. unfold OrderEvent_dict; simpl.
  rewrite !dom_insert_L, dom_empty_L. set_solver.
Qed.

Lemma FillEvent_dict_instance (fill_id order timeindex price symbol exchange
    quantity direction commission : PyVal) :
  instance_of FillEvent (mkObj FillEvent
    (FillEvent_dict fill_id order timeindex price symbol exchange quantity
       direction commission)).
Proof.
  split; [done|]. unfold FillEvent_dict; simpl.
  rewrite !dom_insert_L, dom_empty_L. set_solver.
Qed.

(** ** OrderEvent construction *)

(** C3. For every SignalEvent [s], every quantity and every direction, the
    call [OrderEvent(s, quantity, direction)] returns an order whose
    [symbol], [order_type], [stop_loss], [profit_target], [limit_price] and
    [stop_price] are those of [s], and whose [entry_price], [exit_price],
    [entry_time], [exit_time] and [profit] are all [None]. *)
Theorem OrderEvent_copies_signal (w : World) (ls : loc) (s : Obj)
    (quantity direction : PyVal) :
  heap w !! ls = Some s ->
  instance_of SignalEvent s ->
  exists lo w',
    OrderEvent_new (PyRef ls) quantity direction w = (Ok (PyRef lo), w') /\
    class_of w' lo = Some OrderEvent /\
    Forall (fun n => is_Some (attr w' lo n) /\ attr w' lo n = attr w ls n)
      signal_copied /\
    Forall (fun n => attr w' lo n = Some PyNone) lifecycle.
Proof.
  intros Hs Hinst.
  destruct (SignalEvent_copied s Hinst)
    as (sym & ot & sl & pt & lp & sp & Hsym & Hot & Hsl & Hpt & Hlp & Hsp).
  eexists _, _. split.
  { by apply (OrderEvent_new_run ls s quantity direction sym ot sl pt lp sp). }
  split; [apply class_of_insert_eq|].
  unfold signal_copied, lifecycle, OrderEvent_dict.
  split.
  - repeat (apply Forall_cons; split;
      [rewrite attr_insert_eq, (attr_lookup w ls s) by done;
       simplify_map_eq; split; [by eexists|done] |]).
    constructor.
  - repeat (apply Forall_cons; split;
      [rewrite attr_insert_eq; by simplify_map_eq|]).
    constructor.
Qed.

Lemma OrderEvent_dict_up_to_id (id1 id2 direction quantity symbol order_type
    stop_loss profit_target limit_price stop_price : PyVal) (n : string) :
  n ≠ "order_id" ->
  OrderEvent_dict id1 direction quantity symbol order_type stop_loss
    profit_target limit_price stop_price !! n =
  OrderEvent_dict id2 direction quantity symbol order_type stop_loss
    profit_target limit_price stop_price !! n.
Proof.
  intros Hn. unfold OrderEvent_dict. rewrite !lookup_insert.
  repeat (case_decide; [done|]). done.
Qed.

(** C9. Two orders built from the same SignalEvent with the same quantity
    and direction, in whatever states of the interpreter, have the same class
    and agree on every attribute other than [order_id]. *)
Theorem OrderEvent_deterministic_up_to_id (w1 w2 : World) (ls : loc) (s : Obj)
    (quantity direction : PyVal) :
  heap w1 !! ls = Some s ->
  heap w2 !! ls = Some s ->
  instance_of SignalEvent s ->
  exists l1 l2 w1' w2' o1 o2,
    OrderEvent_new (PyRef ls) quantity direction w1 = (Ok (PyRef l1), w1') /\
    OrderEvent_new (PyRef ls) quantity direction w2 = (Ok (PyRef l2), w2') /\
    heap w1' !! l1 = Some o1 /\
    heap w2' !! l2 = Some o2 /\
    obj_class o1 = obj_class o2 /\
    (forall n, n ≠ "order_id" -> obj_dict o1 !! n = obj_dict o2 !! n).
Proof.
  intros Hs1 Hs2 Hinst.
  destruct (SignalEvent_copied s Hinst)
    as (sym & ot & sl & pt & lp & sp & Hsym & Hot & Hsl & Hpt & Hlp & Hsp).
  eexists _, _, _, _, _, _.
  split; [by apply (OrderEvent_new_run ls s quantity direction sym ot sl pt lp sp)|].
  split; [by apply (OrderEvent_new_run ls s quantity direction sym ot sl pt lp sp)|].
  simpl. split; [apply lookup_insert_eq|]. split; [apply lookup_insert_eq|].
  split; [done|]. simpl. apply OrderEvent_dict_up_to_id.
Qed.

(** ** FillEvent construction *)

(** C8. [FillEvent(o, ...)] returns a new object, different from [o], whose
    [order] is the reference to [o]; the object [o] refers to, and every
    other object of the heap, is after the call what it was before. *)
Theorem FillEvent_leaves_order (w : World) (lo : loc) (o : Obj)
    (timeindex price symbol exchange quantity direction : PyVal)
    (commission : option PyVal) :
  heap w !! lo = Some o ->
  exists lf w',
    FillEvent_new (PyRef lo) timeindex price symbol exchange quantity
      direction commission w = (Ok (PyRef lf), w') /\
    lf ≠ lo /\
    heap w' !! lo = Some o /\
    attr w' lf "order" = Some (PyRef lo) /\
    (forall l, l ≠ lf -> heap w' !! l = heap w !! l).
Proof.
  intros Ho. eexists _, _. split; [apply FillEvent_new_run|].
  assert (fresh (dom (heap w)) ≠ lo) as Hne by (by eapply fresh_loc_ne).
  split; [done|]. simpl.
  split; [by rewrite lookup_insert_ne|].
  split; [rewrite attr_insert_eq; unfold FillEvent_dict; by simplify_map_eq|].
  intros l Hl. by rewrite lookup_insert_ne.
Qed.

(** C4. When [FillEvent] is called without a commission (or with [None]),
    the commission it stores is what [calculate_commission] returns, which is
    0; called with a commission, it stores that very value. *)
Theorem FillEvent_commission_resolved
    (order timeindex price symbol exchange quantity direction : PyVal)
    (commission : option PyVal) (w : World) :
  exists lf w',
    FillEvent_new order timeindex price symbol exchange quantity direction
      commission w = (Ok (PyRef lf), w') /\
    FillEvent_calculate_commission lf w' = (Ok (PyInt 0), w') /\
    (default PyNone commission = PyNone ->
       attr w' lf "commission" = Some (PyInt 0)) /\
    (forall v, commission = Some v -> v ≠ PyNone ->
       attr w' lf "commission" = Some v).
Proof.
  eexists _, _. split; [apply FillEvent_new_run|].
  split; [done|].
  rewrite attr_insert_eq. unfold FillEvent_dict, stored_commission.
  split.
  - intros ->. by simplify_map_eq.
  - intros v -> Hv. simplify_map_eq. by destruct v.
Qed.

(** C10. The commission of a constructed FillEvent is never [None]: when
    the call gives none, it is the 0 of the default calculation; and
    [FillEvent(..., commission=0)] and [FillEvent(...)] run alike: same
    result, same final state. *)
Theorem FillEvent_commission_present
    (order timeindex price symbol exchange quantity direction : PyVal)
    (commission : option PyVal) (w : World) :
  (exists lf w' c,
     FillEvent_new order timeindex price symbol exchange quantity direction
       commission w = (Ok (PyRef lf), w') /\
     attr w' lf "commission" = Some c /\ c ≠ PyNone /\
     (default PyNone commission = PyNone -> c = PyInt 0)) /\
  FillEvent_new order timeindex price symbol exchange quantity direction
    (Some (PyInt 0)) w =
  FillEvent_new order timeindex price symbol exchange quantity direction
    None w.
Proof.
  split.
  - eexists _, _, _. split; [apply FillEvent_new_run|].
    rewrite attr_insert_eq. unfold FillEvent_dict.
    split; [by simplify_map_eq|].
    unfold stored_commission. split; [by destruct commission as [[]|]|].
    by intros ->.
  - by rewrite !FillEvent_new_run.
Qed.

(** ** The discriminant under every call *)

Section Preservation.
Context (l : loc) (c : PyClass).

Lemma preserves_ret {A} (P : World -> Prop) (a : A) : preserves P (ret a).
Proof. by intros w. Qed.

Lemma preserves_raise {A} (P : World -> Prop) (e : PyExc) :
  preserves P (raise (A := A) e).
Proof. by intros w. Qed.

Lemma preserves_bind {A B} (P : World -> Prop) (m : Py A) (k : A -> Py B) :
  preserves P m -> (forall a, preserves P (k a)) -> preserves P (bind m k).
Proof.
  intros Hm Hk w HP. unfold bind. specialize (Hm w HP).
  destruct (m w) as [[a|e] w']; simpl in *; [by apply Hk | done].
Qed.

Lemma preserves_getattr (P : World -> Prop) (x : PyVal) (n : string) :
  preserves P (getattr x n).
Proof.
  intros w HP. unfold getattr.
  destruct x; try done. destruct (heap w !! _) as [o|]; [|done].
  by destruct (obj_dict o !! n).
Qed.

Lemma has_type_uuid4 : preserves (has_type l c) uuid4.
Proof. by intros w. Qed.

Lemma has_type_print (fmt : string) (args : list PyVal) :
  preserves (has_type l c) (print fmt args).
Proof. by intros w. Qed.

Lemma has_type_setattr (self : loc) (n : string) (v : PyVal) :
  n ≠ "type" -> preserves (has_type l c) (setattr self n v).
Proof.
  intros Hn w [Hc Ht]. unfold setattr.
  destruct (heap w !! self) as [o|] eqn:Ho; [|done].
  unfold has_type, class_of, attr in *; simpl.
  destruct (decide (self = l)) as [->|Hne].
  - rewrite lookup_insert_eq; simpl. rewrite Ho in Hc, Ht; simpl in *.
    by rewrite lookup_insert_ne.
  - by rewrite lookup_insert_ne.
Qed.

Lemma has_type_setattr_type (self : loc) (c' : PyClass) :
  (self = l -> c' = c) ->
  preserves (has_type l c) (setattr self "type" (PyStr (class_tag c'))).
Proof.
  intros Hc' w [Hc Ht]. unfold setattr.
  destruct (heap w !! self) as [o|] eqn:Ho; [|done].
  unfold has_type, class_of, attr in *; simpl.
  destruct (decide (self = l)) as [->|Hne].
  - rewrite lookup_insert_eq; simpl. rewrite Ho in Hc; simpl in *.
    rewrite lookup_insert_eq. by rewrite Hc'.
  - by rewrite lookup_insert_ne.
Qed.

Lemma has_type_new_object (c' : PyClass) :
  forall w, has_type l c w ->
    has_type l c (new_object c' w).2 /\ fresh (dom (heap w)) ≠ l.
Proof.
  intros w [Hc Ht]. unfold has_type, class_of, attr in *; simpl.
  destruct (heap w !! l) as [o|] eqn:Ho; [|done].
  assert (fresh (dom (heap w)) ≠ l) as Hne by (by eapply fresh_loc_ne).
  rewrite lookup_insert_ne by done. by rewrite Ho.
Qed.

(** The statements of an [__init__], one after the other. *)
Ltac keep_type :=
  repeat first
    [ apply preserves_bind; [|intros ?]
    | apply has_type_uuid4
    | apply preserves_getattr
    | apply preserves_ret
    | apply has_type_setattr; done ].

Lemma MarketEvent_init_has_type (self : loc) :
  (self = l -> MarketEvent = c) ->
  preserves (has_type l c) (MarketEvent_init self).
Proof. intros Hc. by apply (has_type_setattr_type self MarketEvent). Qed.

Lemma ActionEvent_init_has_type (self : loc) (symbol action_type : PyVal) :
  (self = l -> ActionEvent = c) ->
  preserves (has_type l c) (ActionEvent_init self symbol action_type).
Proof.
  intros Hc. unfold ActionEvent_init.
  apply preserves_bind; [by apply (has_type_setattr_type self ActionEvent)|].
  intros _. keep_type.
Qed.

Lemma SignalEvent_init_has_type (self : loc) (symbol datetime signal_type : PyVal)
    (order_type limit_price stop_loss profit_target stop_price quantity
     strategy_id : option PyVal) :
  (self = l -> SignalEvent = c) ->
  preserves (has_type l c)
    (SignalEvent_init self symbol datetime signal_type order_type limit_price
       stop_loss profit_target stop_price quantity strategy_id).
Proof.
  intros Hc. unfold SignalEvent_init.
  apply preserves_bind; [by apply (has_type_setattr_type self SignalEvent)|].
  intros _. keep_type.
Qed.

Lemma OrderEvent_init_has_type (self : loc) (signal quantity direction : PyVal) :
  (self = l -> OrderEvent = c) ->
  preserves (has_type l c) (OrderEvent_init self signal quantity direction).
Proof.
  intros Hc. unfold OrderEvent_init.
  apply preserves_bind; [by apply (has_type_setattr_type self OrderEvent)|].
  intros _. keep_type.
Qed.

Lemma FillEvent_init_has_type (self : loc)
    (order timeindex price symbol exchange quantity direction : PyVal)
    (commission : option PyVal) :
  (self = l -> FillEvent = c) ->
  preserves (has_type l c)
    (FillEvent_init self order timeindex price symbol exchange quantity
       direction commission).
Proof.
  intros Hc. unfold FillEvent_init, FillEvent_calculate_commission.
  apply preserves_bind; [by apply (has_type_setattr_type self FillEvent)|].
  intros _. destruct (default PyNone commission); keep_type.
Qed.

Lemma apply_init_has_type (c' : PyClass) (self : loc) (args : list PyVal) :
  (self = l -> c' = c) ->
  preserves (has_type l c) (apply_init c' self args).
Proof.
  intros Hc. destruct c'; simpl.
  - destruct args; [by apply MarketEvent_init_has_type | apply preserves_raise].
  - do 3 (destruct args as [|? args]; try apply preserves_raise).
    by apply ActionEvent_init_has_type.
  - do 3 (destruct args as [|? args]; try apply preserves_raise).
    case_decide; [by apply SignalEvent_init_has_type | apply preserves_raise].
  - do 4 (destruct args as [|? args]; try apply preserves_raise).
    by apply OrderEvent_init_has_type.
  - do 7 (destruct args as [|? args]; try apply preserves_raise).
    case_decide; [by apply FillEvent_init_has_type | apply preserves_raise].
Qed.

Lemma construct_has_type (c' : PyClass) (args : list PyVal) :
  preserves (has_type l c) (construct c' args).
Proof.
  intros w Hw. destruct (has_type_new_object c' w Hw) as [Hw' Hne].
  unfold construct. rewrite bind_new_object.
  apply (preserves_bind (has_type l c) (apply_init c' _ args)
           (fun _ => ret (PyRef (fresh (dom (heap w)))))); [| |exact Hw'].
  - by apply apply_init_has_type.
  - intros _. apply preserves_ret.
Qed.

Lemma print_order_has_type (self : loc) :
  preserves (has_type l c) (OrderEvent_print_order self).
Proof.
  unfold OrderEvent_print_order.
  repeat first [ apply preserves_bind; [|intros ?] | apply preserves_getattr
               | apply has_type_print | apply preserves_ret ].
Qed.

Lemma call_method_has_type (self : loc) (name : string) (args : list PyVal) :
  preserves (has_type l c) (call_method self name args).
Proof.
  intros w Hw. unfold call_method.
  destruct (heap w !! self) as [o|] eqn:Ho; [|done].
  destruct (obj_dict o !! name); [done|].
  destruct (class_method (obj_class o) name) as [[]|]; [| | |done]; simpl.
  - apply (preserves_bind (has_type l c)); [| |done].
    + apply apply_init_has_type. intros ->.
      destruct Hw as [Hc _]. unfold class_of in Hc. rewrite Ho in Hc.
      by injection Hc.
    + intros _. apply preserves_ret.
  - destruct args; [by apply print_order_has_type | done].
  - by destruct args.
Qed.

Lemma exec_has_type (call : Call) : preserves (has_type l c) (exec call).
Proof.
  destruct call; [apply construct_has_type | apply call_method_has_type].
Qed.

Lemma run_has_type (cs : list Call) (w : World) :
  has_type l c w -> has_type l c (run cs w).
Proof.
  revert w. induction cs as [|call cs IH]; intros w Hw; [done|].
  simpl. apply IH. by apply exec_has_type.
Qed.

End Preservation.

(** ** Every variant: its tag and its fields *)

Lemma has_type_insert (l : loc) (c : PyClass) (dict : gmap string PyVal)
    (h : gmap loc Obj) u d s :
  dict !! "type" = Some (PyStr (class_tag c)) ->
  has_type l c (mkWorld (<[l := mkObj c dict]> h) u d s).
Proof.
  intros Ht. split; [apply class_of_insert_eq | by rewrite attr_insert_eq].
Qed.

(** The attributes of a newly built object, read off its dictionary. *)
Ltac read_fields :=
  unfold with_heap;
  repeat (apply Forall_cons; split;
    [simpl; rewrite attr_insert_eq; by simplify_map_eq|]);
  constructor.

Lemma stored_commission_explicit (v : PyVal) :
  v ≠ PyNone -> stored_commission (Some v) = v.
Proof. by destruct v. Qed.

(** C7. Every constructor, in every state, returns an instance whose
    [type] is the tag of its class and whose attributes are the arguments of
    the call, as they were passed: a SignalEvent falls back on 'MKT', 10000
    and 1 (and [None] for the prices) for the arguments the call leaves out,
    an OrderEvent built from a SignalEvent takes six attributes from it, a
    FillEvent stores the commission it is given. The [type] is set at
    construction and nothing in the module changes it afterwards: no later
    class call and no later call of [__init__] or of a method the module
    defines leaves an object with another [type]. *)
Theorem events_carry_tag_and_inputs (w : World)
    (a_symbol a_action_type : PyVal)
    (s_symbol s_datetime s_signal_type : PyVal)
    (s_order_type s_limit_price s_stop_loss s_profit_target s_stop_price
     s_quantity s_strategy_id : option PyVal)
    (o_quantity o_direction : PyVal)
    (f_order f_timeindex f_price f_symbol f_exchange f_quantity f_direction : PyVal)
    (f_commission : option PyVal) :
  builds MarketEvent_new w MarketEvent [] /\
  builds (ActionEvent_new a_symbol a_action_type) w ActionEvent
    [("symbol", Some a_symbol); ("action_type", Some a_action_type)] /\
  builds (SignalEvent_new s_symbol s_datetime s_signal_type s_order_type
            s_limit_price s_stop_loss s_profit_target s_stop_price s_quantity
            s_strategy_id) w SignalEvent
    [("symbol", Some s_symbol); ("datetime", Some s_datetime);
     ("signal_type", Some s_signal_type);
     ("order_type", Some (default (PyStr "MKT") s_order_type));
     ("limit_price", Some (default PyNone s_limit_price));
     ("stop_loss", Some (default PyNone s_stop_loss));
     ("profit_target", Some (default PyNone s_profit_target));
     ("stop_price", Some (default PyNone s_stop_price));
     ("quantity", Some (default (PyInt 10000) s_quantity));
     ("strategy_id", Some (default (PyInt 1) s_strategy_id))] /\
  (forall ls s,
     heap w !! ls = Some s ->
     instance_of SignalEvent s ->
     builds (OrderEvent_new (PyRef ls) o_quantity o_direction) w OrderEvent
       [("quantity", Some o_quantity); ("direction", Some o_direction);
        ("symbol", obj_dict s !! "symbol");
        ("order_type", obj_dict s !! "order_type");
        ("stop_loss", obj_dict s !! "stop_loss");
        ("profit_target", obj_dict s !! "profit_target");
        ("limit_price", obj_dict s !! "limit_price");
        ("stop_price", obj_dict s !! "stop_price")]) /\
  builds (FillEvent_new f_order f_timeindex f_price f_symbol f_exchange
            f_quantity f_direction f_commission) w FillEvent
    [("order", Some f_order); ("timeindex", Some f_timeindex);
     ("price", Some f_price); ("symbol", Some f_symbol);
     ("exchange", Some f_exchange); ("quantity", Some f_quantity);
     ("direction", Some f_direction);
     ("commission", Some (stored_commission f_commission))] /\
  (forall v, v ≠ PyNone -> stored_commission (Some v) = v) /\
  (forall l c cs w1,
     Forall own_call cs -> has_type l c w1 -> has_type l c (run cs w1)).
Proof.
  refine (conj _ (conj _ (conj _ (conj _ (conj _ (conj _ _)))))).
  - eexists _, _. split; [apply MarketEvent_new_run|].
    split; [apply fresh_loc_None|]. split; [by apply has_type_insert|].
    constructor.
  - eexists _, _. split; [apply ActionEvent_new_run|].
    split; [apply fresh_loc_None|]. split; [by apply has_type_insert|].
    unfold ActionEvent_dict. read_fields.
  - eexists _, _. split; [apply SignalEvent_new_run|].
    split; [apply fresh_loc_None|]. split; [by apply has_type_insert|].
    unfold SignalEvent_dict. read_fields.
  - intros ls s Hs Hinst.
    destruct (SignalEvent_copied s Hinst)
      as (sym & ot & sl & pt & lp & sp & Hsym & Hot & Hsl & Hpt & Hlp & Hsp).
    eexists _, _.
    split; [by apply (OrderEvent_new_run ls s o_quantity o_direction sym ot sl pt lp sp)|].
    split; [apply fresh_loc_None|]. split; [by apply has_type_insert|].
    rewrite Hsym, Hot, Hsl, Hpt, Hlp, Hsp. unfold OrderEvent_dict. read_fields.
  - eexists _, _. split; [apply FillEvent_new_run|].
    split; [apply fresh_loc_None|]. split; [by apply has_type_insert|].
    unfold FillEvent_dict. read_fields.
  - apply stored_commission_explicit.
  - intros l c cs w1 _ Hw1. by apply run_has_type.
Qed.

(** ** Calls by name *)

Lemma construct_MarketEvent : construct MarketEvent [] = MarketEvent_new.
Proof. reflexivity. Qed.

Lemma construct_ActionEvent (symbol action_type : PyVal) :
  construct ActionEvent [symbol; action_type] = ActionEvent_new symbol action_type.
Proof. reflexivity. Qed.

Lemma construct_SignalEvent (symbol datetime signal_type : PyVal)
    (opt : list PyVal) :
  length opt <= 7 ->
  construct SignalEvent (symbol :: datetime :: signal_type :: opt) =
  SignalEvent_new symbol datetime signal_type (opt !! 0) (opt !! 1) (opt !! 2)
    (opt !! 3) (opt !! 4) (opt !! 5) (opt !! 6).
Proof. intros Hlen. unfold construct, SignalEvent_new; simpl. by case_decide. Qed.

Lemma construct_OrderEvent (signal quantity direction : PyVal) :
  construct OrderEvent [signal; quantity; direction] =
  OrderEvent_new signal quantity direction.
Proof. reflexivity. Qed.

Lemma construct_FillEvent
    (order timeindex price symbol exchange quantity direction : PyVal)
    (opt : list PyVal) :
  length opt <= 1 ->
  construct FillEvent
    (order :: timeindex :: price :: symbol :: exchange :: quantity :: direction :: opt) =
  FillEvent_new order timeindex price symbol exchange quantity direction (opt !! 0).
Proof. intros Hlen. unfold construct, FillEvent_new; simpl. by case_decide. Qed.

(** A name that neither the instance nor its class knows. *)
Lemma call_method_undefined (w : World) (l : loc) (o : Obj) (name : string)
    (args : list PyVal) :
  heap w !! l = Some o ->
  obj_dict o !! name = None ->
  class_method (obj_class o) name = None ->
  call_method l name args w = (Err (AttributeError name), w).
Proof. intros Hl Hn Hm. unfold call_method. by rewrite Hl, Hn, Hm. Qed.

Lemma OrderEvent_no_such_method (w : World) (lo : loc) (o : Obj)
    (name : string) (args : list PyVal) :
  heap w !! lo = Some o ->
  instance_of OrderEvent o ->
  name = "record_entry" \/ name = "record_exit" ->
  call_method lo name args w = (Err (AttributeError name), w).
Proof.
  intros Ho Hinst Hname. apply (call_method_undefined w lo o); [done| |].
  - apply (instance_of_lacks OrderEvent); [done|].
    unfold class_attrs, signal_copied, lifecycle; simpl.
    destruct Hname as [-> | ->]; rewrite !not_elem_of_cons;
      repeat (split; [done|]); apply not_elem_of_nil.
  - destruct Hinst as [-> _]. by destruct Hname as [-> | ->].
Qed.

(** C2, as the code has it. [OrderEvent] defines neither [record_entry] nor
    [record_exit]: on every OrderEvent, in every state and with whatever
    arguments, a call to either, the first as any later one, raises
    [AttributeError] and leaves the state as it was, the lifecycle
    attributes included. *)
Theorem OrderEvent_ledger_calls_raise (w : World) (lo : loc) (o : Obj)
    (args : list PyVal) :
  heap w !! lo = Some o ->
  instance_of OrderEvent o ->
  call_method lo "record_entry" args w = (Err (AttributeError "record_entry"), w) /\
  call_method lo "record_exit" args w = (Err (AttributeError "record_exit"), w).
Proof.
  intros Ho Hinst.
  split; apply (OrderEvent_no_such_method w lo o); auto.
Qed.

(** ** Conditionally required prices *)

(** C1, as the code has it. [SignalEvent] checks nothing: whatever the
    order type, and with [limit_price] and [stop_price] given or left out,
    the call returns an instance that stores them as they came ([None] when
    left out), and [OrderEvent] built from it returns too, with the same
    three attributes. That a limit order carries a limit price, and a stop
    order a stop price, is left to the caller. *)
Theorem SignalEvent_accepts_absent_prices (symbol datetime signal_type : PyVal)
    (order_type limit_price stop_loss profit_target stop_price quantity
     strategy_id : option PyVal) (o_quantity o_direction : PyVal) (w : World) :
  exists ls w1 lo w2,
    SignalEvent_new symbol datetime signal_type order_type limit_price
      stop_loss profit_target stop_price quantity strategy_id w =
      (Ok (PyRef ls), w1) /\
    attr w1 ls "order_type" = Some (default (PyStr "MKT") order_type) /\
    attr w1 ls "limit_price" = Some (default PyNone limit_price) /\
    attr w1 ls "stop_price" = Some (default PyNone stop_price) /\
    OrderEvent_new (PyRef ls) o_quantity o_direction w1 = (Ok (PyRef lo), w2) /\
    attr w2 lo "order_type" = Some (default (PyStr "MKT") order_type) /\
    attr w2 lo "limit_price" = Some (default PyNone limit_price) /\
    attr w2 lo "stop_price" = Some (default PyNone stop_price).
Proof.
  eexists _, _, _, _. split; [apply SignalEvent_new_run|].
  unfold with_heap. rewrite !attr_insert_eq. unfold SignalEvent_dict.
  do 3 (split; [by simplify_map_eq|]).
  split.
  { eapply OrderEvent_new_run; simpl;
      [apply lookup_insert_eq | by simplify_map_eq ..]. }
  unfold OrderEvent_dict.
  do 2 (split; [by simplify_map_eq|]). by simplify_map_eq.
Qed.

(** ** A run of the module *)

(** C1 fails on the code: a limit signal without a limit price, and a stop
    signal without a stop price, are built, and so is an order from each. *)
Lemma bare_signals_are_built :
  (bare_signal "LMT" boot).1 = Ok (PyRef 1%positive) /\
  attr (bare_signal "LMT" boot).2 1%positive "order_type" = Some (PyStr "LMT") /\
  attr (bare_signal "LMT" boot).2 1%positive "limit_price" = Some PyNone /\
  (goog_order (PyRef 1%positive) (bare_signal "LMT" boot).2).1 = Ok (PyRef 2%positive) /\
  attr (goog_order (PyRef 1%positive) (bare_signal "LMT" boot).2).2 2%positive
    "limit_price" = Some PyNone /\
  (bare_signal "STP" boot).1 = Ok (PyRef 1%positive) /\
  attr (bare_signal "STP" boot).2 1%positive "order_type" = Some (PyStr "STP") /\
  attr (bare_signal "STP" boot).2 1%positive "stop_price" = Some PyNone /\
  (goog_order (PyRef 1%positive) (bare_signal "STP" boot).2).1 = Ok (PyRef 2%positive) /\
  attr (goog_order (PyRef 1%positive) (bare_signal "STP" boot).2).2 2%positive
    "stop_price" = Some PyNone.
Proof. repeat split; by vm_compute. Qed.

Lemma with_order_holds :
  heap with_order !! 1%positive = Some the_signal /\
  heap with_order !! 2%positive = Some the_order.
Proof. split; by vm_compute. Qed.

(** C2 fails on the code: on a new order the first [record_entry] already
    raises, an [AttributeError], and sets nothing; so does [record_exit]. *)
Lemma record_entry_is_no_method :
  class_of with_order 2%positive = Some OrderEvent /\
  call_method 2%positive "record_entry" [PyFloat 100.25; PyDatetime 1] with_order =
    (Err (Raise "AttributeError" "record_entry"), with_order) /\
  attr with_order 2%positive "entry_price" = Some PyNone /\
  attr with_order 2%positive "entry_time" = Some PyNone /\
  call_method 2%positive "record_exit" [PyFloat 105; PyDatetime 2] with_order =
    (Err (Raise "AttributeError" "record_exit"), with_order).
Proof.
  destruct with_order_holds as [_ Ho].
  assert (instance_of OrderEvent the_order) as Hinst
    by apply OrderEvent_dict_instance.
  split; [by vm_compute|].
  split; [apply (OrderEvent_no_such_method _ _ the_order); auto|].
  split; [by vm_compute|]. split; [by vm_compute|].
  apply (OrderEvent_no_such_method _ _ the_order); auto.
Qed.

(** C5 fails on the code: after the four calls the order's [profit] is
    still [None], not 237.50, and neither an entry nor an exit is recorded. *)
Lemma goog_profit_stays_absent :
  class_of (run goog_calls boot) 2%positive = Some OrderEvent /\
  attr (run goog_calls boot) 2%positive "limit_price" = Some (PyFloat 100.5) /\
  attr (run goog_calls boot) 2%positive "quantity" = Some (PyInt 50) /\
  attr (run goog_calls boot) 2%positive "entry_price" = Some PyNone /\
  attr (run goog_calls boot) 2%positive "exit_price" = Some PyNone /\
  attr (run goog_calls boot) 2%positive "profit" = Some PyNone /\
  attr (run goog_calls boot) 2%positive "profit" ≠ Some (PyFloat 237.5).
Proof. repeat split; try by vm_compute. Qed.

(** C5, as the code has it. The signal and the order of the scenario are
    built, in whatever state; the order has [limit_price] 100.50,
    [quantity] 50, and [entry_price] and [profit] [None]; [record_entry]
    and [record_exit] are not methods of the order: each call raises
    [AttributeError] and leaves the state, and so [profit], as it was. *)
Theorem goog_scenario (datetime t1 t2 : PyVal) (w : World) :
  exists ls lo w1 w2,
    goog_signal datetime w = (Ok (PyRef ls), w1) /\
    goog_order (PyRef ls) w1 = (Ok (PyRef lo), w2) /\
    attr w2 lo "limit_price" = Some (PyFloat 100.5) /\
    attr w2 lo "quantity" = Some (PyInt 50) /\
    attr w2 lo "entry_price" = Some PyNone /\
    attr w2 lo "profit" = Some PyNone /\
    call_method lo "record_entry" [PyFloat 100.25; t1] w2 =
      (Err (AttributeError "record_entry"), w2) /\
    call_method lo "record_exit" [PyFloat 105; t2] w2 =
      (Err (AttributeError "record_exit"), w2).
Proof.
  unfold goog_signal, goog_order.
  eexists _, _, _, _. split; [apply SignalEvent_new_run|].
  split.
  { eapply OrderEvent_new_run; simpl;
      [apply lookup_insert_eq | unfold SignalEvent_dict; by simplify_map_eq ..]. }
  rewrite !attr_insert_eq. unfold OrderEvent_dict.
  do 4 (split; [by simplify_map_eq|]).
  split; eapply OrderEvent_no_such_method; auto;
    first [apply lookup_insert_eq | apply OrderEvent_dict_instance].
Qed.

(** ** The theorems at work on that run *)

(** C3 on the order of the run. *)
Lemma OrderEvent_copies_signal_witness :
  heap with_signal !! 1%positive = Some the_signal /\
  instance_of SignalEvent the_signal /\
  exists lo w',
    OrderEvent_new (PyRef 1%positive) (PyInt 50) (PyStr "BUY") with_signal =
      (Ok (PyRef lo), w') /\
    class_of w' lo = Some OrderEvent /\
    Forall (fun n => is_Some (attr w' lo n) /\
                     attr w' lo n = attr with_signal 1%positive n)
      signal_copied /\
    Forall (fun n => attr w' lo n = Some PyNone) lifecycle.
Proof.
  assert (heap with_signal !! 1%positive = Some the_signal) as H1
    by (by vm_compute).
  assert (instance_of SignalEvent the_signal) as H2
    by apply SignalEvent_dict_instance.
  split; [exact H1|]. split; [exact H2|].
  exact (OrderEvent_copies_signal with_signal 1%positive the_signal (PyInt 50)
           (PyStr "BUY") H1 H2).
Defined.

(** C9 on two orders from the signal of the run, one built before and one
    after the run's own order. *)
Lemma OrderEvent_deterministic_up_to_id_witness :
  heap with_signal !! 1%positive = Some the_signal /\
  heap with_order !! 1%positive = Some the_signal /\
  instance_of SignalEvent the_signal /\
  exists l1 l2 w1' w2' o1 o2,
    OrderEvent_new (PyRef 1%positive) (PyInt 50) (PyStr "BUY") with_signal =
      (Ok (PyRef l1), w1') /\
    OrderEvent_new (PyRef 1%positive) (PyInt 50) (PyStr "BUY") with_order =
      (Ok (PyRef l2), w2') /\
    heap w1' !! l1 = Some o1 /\
    heap w2' !! l2 = Some o2 /\
    obj_class o1 = obj_class o2 /\
    (forall n, n ≠ "order_id" -> obj_dict o1 !! n = obj_dict o2 !! n).
Proof.
  assert (heap with_signal !! 1%positive = Some the_signal) as H1
    by (by vm_compute).
  assert (heap with_order !! 1%positive = Some the_signal) as H2
    by (by vm_compute).
  assert (instance_of SignalEvent the_signal) as H3
    by apply SignalEvent_dict_instance.
  split; [exact H1|]. split; [exact H2|]. split; [exact H3|].
  exact (OrderEvent_deterministic_up_to_id with_signal with_order 1%positive
           the_signal (PyInt 50) (PyStr "BUY") H1 H2 H3).
Defined.

(** C8 on a fill of the run's order. *)
Lemma FillEvent_leaves_order_witness :
  heap with_order !! 2%positive = Some the_order /\
  exists lf w',
    FillEvent_new (PyRef 2%positive) (PyDatetime 1) (PyFloat 100.25)
      (PyStr "GOOG") (PyStr "ARCA") (PyInt 50) (PyStr "BUY") None with_order =
      (Ok (PyRef lf), w') /\
    lf ≠ 2%positive /\
    heap w' !! 2%positive = Some the_order /\
    attr w' lf "order" = Some (PyRef 2%positive) /\
    (forall l, l ≠ lf -> heap w' !! l = heap with_order !! l).
Proof.
  assert (heap with_order !! 2%positive = Some the_order) as H1
    by (by vm_compute).
  split; [exact H1|].
  exact (FillEvent_leaves_order with_order 2%positive the_order (PyDatetime 1)
           (PyFloat 100.25) (PyStr "GOOG") (PyStr "ARCA") (PyInt 50)
           (PyStr "BUY") None H1).
Defined.

(** C2, as the code has it, on the run's order. *)
Lemma OrderEvent_ledger_calls_raise_witness :
  heap with_order !! 2%positive = Some the_order /\
  instance_of OrderEvent the_order /\
  call_method 2%positive "record_entry" [PyFloat 100.25; PyDatetime 1] with_order =
    (Err (AttributeError "record_entry"), with_order) /\
  call_method 2%positive "record_exit" [PyFloat 100.25; PyDatetime 1] with_order =
    (Err (AttributeError "record_exit"), with_order).
Proof.
  assert (heap with_order !! 2%positive = Some the_order) as H1
    by (by vm_compute).
  assert (instance_of OrderEvent the_order) as H2
    by apply OrderEvent_dict_instance.
  split; [exact H1|]. split; [exact H2|].
  exact (OrderEvent_ledger_calls_raise with_order 2%positive the_order
           [PyFloat 100.25; PyDatetime 1] H1 H2).
Defined.

(** C7 on the run: the first event of a new interpreter, the order built
    from the run's signal, and the type of that order after more calls. *)
Lemma events_carry_tag_and_inputs_witness :
  builds MarketEvent_new boot MarketEvent [] /\
  heap with_signal !! 1%positive = Some the_signal /\
  instance_of SignalEvent the_signal /\
  builds (OrderEvent_new (PyRef 1%positive) (PyInt 50) (PyStr "BUY"))
    with_signal OrderEvent
    [("quantity", Some (PyInt 50)); ("direction", Some (PyStr "BUY"));
     ("symbol", obj_dict the_signal !! "symbol");
     ("order_type", obj_dict the_signal !! "order_type");
     ("stop_loss", obj_dict the_signal !! "stop_loss");
     ("profit_target", obj_dict the_signal !! "profit_target");
     ("limit_price", obj_dict the_signal !! "limit_price");
     ("stop_price", obj_dict the_signal !! "stop_price")] /\
  Forall own_call more_calls /\
  has_type 2%positive OrderEvent with_order /\
  has_type 2%positive OrderEvent (run more_calls with_order).
Proof.
  assert (heap with_signal !! 1%positive = Some the_signal) as H1
    by (by vm_compute).
  assert (instance_of SignalEvent the_signal) as H2
    by apply SignalEvent_dict_instance.
  assert (Forall own_call more_calls) as H3
    by (repeat (constructor; [by vm_compute|]); constructor).
  assert (has_type 2%positive OrderEvent with_order) as H4
    by (split; by vm_compute).
  pose proof (events_carry_tag_and_inputs boot
    (PyStr "GOOG") (PyStr "CLOSE_ALL")
    (PyStr "GOOG") (PyDatetime 0) (PyStr "LONG") None None None None None None None
    (PyInt 50) (PyStr "BUY")
    (PyRef 2%positive) (PyDatetime 1) (PyFloat 100.25) (PyStr "GOOG")
    (PyStr "ARCA") (PyInt 50) (PyStr "BUY") None)
    as (Hmarket & _).
  pose proof (events_carry_tag_and_inputs with_signal
    (PyStr "GOOG") (PyStr "CLOSE_ALL")
    (PyStr "GOOG") (PyDatetime 0) (PyStr "LONG") None None None None None None None
    (PyInt 50) (PyStr "BUY")
    (PyRef 2%positive) (PyDatetime 1) (PyFloat 100.25) (PyStr "GOOG")
    (PyStr "ARCA") (PyInt 50) (PyStr "BUY") None)
    as (_ & _ & _ & Horder & _ & _ & Hfixed).
  split; [exact Hmarket|]. split; [exact H1|]. split; [exact H2|].
  split; [exact (Horder 1%positive the_signal H1 H2)|].
  split; [exact H3|]. split; [exact H4|].
  exact (Hfixed 2%positive OrderEvent more_calls with_order H3 H4).
Defined.

(** * Further properties of the module *)

(** ** Printing an order *)

Lemma bind_print {B} (fmt : string) (args : list PyVal) (k : unit -> Py B)
    (h : gmap loc Obj) u d s :
  bind (print fmt args) k (mkWorld h u d s) =
  k tt (mkWorld h u d (s ++ [mkLine fmt args])).
Proof. reflexivity. Qed.

Lemma print_order_run (w : World) (lo : loc) (o : Obj)
    (symbol order_type quantity direction : PyVal) :
  heap w !! lo = Some o ->
  obj_dict o !! "symbol" = Some symbol ->
  obj_dict o !! "order_type" = Some order_type ->
  obj_dict o !! "quantity" = Some quantity ->
  obj_dict o !! "direction" = Some direction ->
  OrderEvent_print_order lo w =
  (Ok PyNone,
   mkWorld (heap w) (urandom w) (drawn w)
     (stdout w ++ [mkLine "Order: Symbol=%s, Type=%s, Quantity=%s, Direction=%s"
                     [symbol; order_type; quantity; direction]])).
Proof.
  destruct w as [h u d s]; simpl. intros Ho Hsym Hot Hq Hd.
  unfold OrderEvent_print_order.
  rewrite (bind_getattr lo "symbol" symbol o) by done.
  rewrite (bind_getattr lo "order_type" order_type o) by done.
  rewrite (bind_getattr lo "quantity" quantity o) by done.
  rewrite (bind_getattr lo "direction" direction o) by done.
  by rewrite bind_print.
Qed.

Lemma instance_no_method_attr (c : PyClass) (o : Obj) (name : string) :
  instance_of c o ->
  name = "print_order" \/ name = "calculate_commission" ->
  obj_dict o !! name = None.
Proof.
  intros Hinst Hname. apply (instance_of_lacks c); [done|].
  destruct c; unfold class_attrs, signal_copied, lifecycle; simpl;
    destruct Hname as [-> | ->]; rewrite !not_elem_of_cons;
    repeat (split; [done|]); apply not_elem_of_nil.
Qed.

Lemma call_print_order (w : World) (lo : loc) (o : Obj) :
  heap w !! lo = Some o ->
  instance_of OrderEvent o ->
  call_method lo "print_order" [] w = OrderEvent_print_order lo w.
Proof.
  intros Ho Hinst. unfold call_method. rewrite Ho.
  rewrite (instance_no_method_attr OrderEvent o "print_order") by auto.
  by destruct Hinst as [-> _].
Qed.

(** X1. [order.print_order()] on any OrderEvent returns [None] and prints
    one line, made of the order's own [symbol], [order_type], [quantity] and
    [direction] in that order; the heap and the entropy source are as they
    were. *)
Theorem print_order_prints_order (w : World) (lo : loc) (o : Obj) :
  heap w !! lo = Some o ->
  instance_of OrderEvent o ->
  exists symbol order_type quantity direction,
    obj_dict o !! "symbol" = Some symbol /\
    obj_dict o !! "order_type" = Some order_type /\
    obj_dict o !! "quantity" = Some quantity /\
    obj_dict o !! "direction" = Some direction /\
    call_method lo "print_order" [] w =
    (Ok PyNone,
     mkWorld (heap w) (urandom w) (drawn w)
       (stdout w ++ [mkLine "Order: Symbol=%s, Type=%s, Quantity=%s, Direction=%s"
                       [symbol; order_type; quantity; direction]])).
Proof.
  intros Ho Hinst.
  destruct (instance_of_has _ _ "symbol" Hinst) as [sym Hsym]; [set_solver|].
  destruct (instance_of_has _ _ "order_type" Hinst) as [ot Hot]; [set_solver|].
  destruct (instance_of_has _ _ "quantity" Hinst) as [q Hq]; [set_solver|].
  destruct (instance_of_has _ _ "direction" Hinst) as [d Hd]; [set_solver|].
  exists sym, ot, q, d. do 4 (split; [done|]).
  rewrite (call_print_order w lo o) by done.
  by apply (print_order_run w lo o).
Qed.

Lemma print_order_prints_order_witness :
  heap with_order !! 2%positive = Some the_order /\
  instance_of OrderEvent the_order /\
  exists symbol order_type quantity direction,
    obj_dict the_order !! "symbol" = Some symbol /\
    obj_dict the_order !! "order_type" = Some order_type /\
    obj_dict the_order !! "quantity" = Some quantity /\
    obj_dict the_order !! "direction" = Some direction /\
    call_method 2%positive "print_order" [] with_order =
    (Ok PyNone,
     mkWorld (heap with_order) (urandom with_order) (drawn with_order)
       (stdout with_order ++
          [mkLine "Order: Symbol=%s, Type=%s, Quantity=%s, Direction=%s"
             [symbol; order_type; quantity; direction]])).
Proof.
  assert (heap with_order !! 2%positive = Some the_order) as H1
    by (by vm_compute).
  assert (instance_of OrderEvent the_order) as H2
    by apply OrderEvent_dict_instance.
  split; [exact H1|]. split; [exact H2|].
  exact (print_order_prints_order with_order 2%positive the_order H1 H2).
Defined.

(** X2. An order built from a signal and then printed shows the signal's
    [symbol] and [order_type] and the quantity and direction the order was
    built with, whatever quantity the signal suggests; printing leaves the
    heap as the construction left it. *)
Theorem print_order_of_new_order (w : World) (ls : loc) (s : Obj)
    (quantity direction : PyVal) :
  heap w !! ls = Some s ->
  instance_of SignalEvent s ->
  exists lo w1 w2 symbol order_type,
    OrderEvent_new (PyRef ls) quantity direction w = (Ok (PyRef lo), w1) /\
    obj_dict s !! "symbol" = Some symbol /\
    obj_dict s !! "order_type" = Some order_type /\
    call_method lo "print_order" [] w1 = (Ok PyNone, w2) /\
    stdout w2 =
      (stdout w ++ [mkLine "Order: Symbol=%s, Type=%s, Quantity=%s, Direction=%s"
                      [symbol; order_type; quantity; direction]])%list /\
    heap w2 = heap w1.
Proof.
  intros Hs Hinst.
  destruct (SignalEvent_copied s Hinst)
    as (sym & ot & sl & pt & lp & sp & Hsym & Hot & Hsl & Hpt & Hlp & Hsp).
  pose proof (OrderEvent_new_run ls s quantity direction sym ot sl pt lp sp w
                Hs Hsym Hot Hsl Hpt Hlp Hsp) as Hnew.
  simpl in Hnew.
  eexists _, _, _, sym, ot. split; [exact Hnew|].
  do 2 (split; [done|]).
  split.
  { erewrite call_print_order;
      [|apply lookup_insert_eq | apply OrderEvent_dict_instance].
    eapply print_order_run;
      [apply lookup_insert_eq | unfold OrderEvent_dict; by simplify_map_eq ..]. }
  by simpl.
Qed.

Lemma print_order_of_new_order_witness :
  heap with_signal !! 1%positive = Some the_signal /\
  instance_of SignalEvent the_signal /\
  exists lo w1 w2 symbol order_type,
    OrderEvent_new (PyRef 1%positive) (PyInt 50) (PyStr "BUY") with_signal =
      (Ok (PyRef lo), w1) /\
    obj_dict the_signal !! "symbol" = Some symbol /\
    obj_dict the_signal !! "order_type" = Some order_type /\
    call_method lo "print_order" [] w1 = (Ok PyNone, w2) /\
    stdout w2 =
      (stdout with_signal ++
         [mkLine "Order: Symbol=%s, Type=%s, Quantity=%s, Direction=%s"
            [symbol; order_type; PyInt 50; PyStr "BUY"]])%list /\
    heap w2 = heap w1.
Proof.
  assert (heap with_signal !! 1%positive = Some the_signal) as H1
    by (by vm_compute).
  assert (instance_of SignalEvent the_signal) as H2
    by apply SignalEvent_dict_instance.
  split; [exact H1|]. split; [exact H2|].
  exact (print_order_of_new_order with_signal 1%positive the_signal (PyInt 50)
           (PyStr "BUY") H1 H2).
Defined.

(** ** When building an order fails *)

Lemma bind_getattr_missing {B} (l : loc) (n : string) (o : Obj)
    (k : PyVal -> Py B) (h : gmap loc Obj) u d s :
  h !! l = Some o -> obj_dict o !! n = None ->
  bind (getattr (PyRef l) n) k (mkWorld h u d s) =
  (Err (AttributeError n), mkWorld h u d s).
Proof. intros Hl Hn. unfold bind, getattr; simpl. by rewrite Hl, Hn. Qed.

Lemma bind_getattr_not_object {B} (x : PyVal) (n : string)
    (k : PyVal -> Py B) (w : World) :
  (forall l, x ≠ PyRef l) ->
  bind (getattr x n) k w = (Err (AttributeError n), w).
Proof. intros Hx. unfold bind, getattr. destruct x; try done. by destruct (Hx l). Qed.

Lemma signal_copied_split (pre post : list string) (n : string) :
  signal_copied = (pre ++ n :: post)%list ->
  (pre = [] /\ n = "symbol") \/
  (pre = ["symbol"] /\ n = "order_type") \/
  (pre = ["symbol"; "order_type"] /\ n = "stop_loss") \/
  (pre = ["symbol"; "order_type"; "stop_loss"] /\ n = "profit_target") \/
  (pre = ["symbol"; "order_type"; "stop_loss"; "profit_target"] /\
   n = "limit_price") \/
  (pre = ["symbol"; "order_type"; "stop_loss"; "profit_target"; "limit_price"] /\
   n = "stop_price").
Proof.
  unfold signal_copied. intros H.
  do 6 (destruct pre as [|? pre];
        [injection H as <- _; tauto | injection H as <- H]).
  by destruct pre.
Qed.

(** One step that reads an attribute the signal does not have. *)
Ltac py_miss l :=
  erewrite (bind_getattr_missing l);
  [ | rewrite lookup_insert_ne; [ eassumption | eapply fresh_loc_ne; eassumption ]
    | eassumption ].

Lemma OrderEvent_new_missing (w : World) (ls : loc) (s : Obj)
    (quantity direction : PyVal) (pre post : list string) (n : string) :
  heap w !! ls = Some s ->
  signal_copied = (pre ++ n :: post)%list ->
  Forall (fun m => is_Some (obj_dict s !! m)) pre ->
  obj_dict s !! n = None ->
  (OrderEvent_new (PyRef ls) quantity direction w).1 = Err (AttributeError n) /\
  heap (OrderEvent_new (PyRef ls) quantity direction w).2 !! ls = Some s /\
  drawn (OrderEvent_new (PyRef ls) quantity direction w).2 = S (drawn w).
Proof.
  intros Hs Hsplit Hpre Hn.
  assert (fresh (dom (heap w)) ≠ ls) as Hne by (by eapply fresh_loc_ne).
  destruct (signal_copied_split pre post n Hsplit)
    as [[-> ->]|[[-> ->]|[[-> ->]|[[-> ->]|[[-> ->]|[-> ->]]]]]];
    repeat (apply Forall_cons in Hpre as [[? ?] Hpre]);
    unfold OrderEvent_new, OrderEvent_init;
    repeat first [ py_step | py_read ls "symbol" | py_read ls "order_type"
                 | py_read ls "stop_loss" | py_read ls "profit_target"
                 | py_read ls "limit_price" | py_miss ls ];
    simpl; by rewrite lookup_insert_ne.
Qed.

Lemma Forall_by_prefix {A} (P : A -> Prop) (l : list A) :
  (forall pre x post, l = (pre ++ x :: post)%list -> Forall P pre -> P x) ->
  Forall P l.
Proof.
  intros H.
  assert (forall post pre, l = (pre ++ post)%list -> Forall P pre -> Forall P post)
    as Hgen.
  { induction post as [|x post IH]; intros pre Heq Hpre; [constructor|].
    assert (P x) as Hx by (by eapply H).
    constructor; [done|]. apply (IH (pre ++ [x])%list).
    - by rewrite <- app_assoc.
    - apply Forall_app. split; [done|]. by constructor. }
  apply (Hgen l []); [done | constructor].
Qed.

(** X3. [OrderEvent(signal, quantity, direction)] returns an order exactly
    when the object passed as signal carries [symbol], [order_type],
    [stop_loss], [profit_target], [limit_price] and [stop_price]: any object
    with these six attributes serves, and nothing else about it is read. *)
Theorem OrderEvent_new_succeeds_iff (w : World) (ls : loc) (s : Obj)
    (quantity direction : PyVal) :
  heap w !! ls = Some s ->
  (exists lo w',
     OrderEvent_new (PyRef ls) quantity direction w = (Ok (PyRef lo), w')) <->
  Forall (fun n => is_Some (obj_dict s !! n)) signal_copied.
Proof.
  intros Hs. split.
  - intros (lo & w' & Hok). apply Forall_by_prefix.
    intros pre n post Hsplit Hpre.
    destruct (obj_dict s !! n) eqn:Hn; [by eexists|].
    destruct (OrderEvent_new_missing w ls s quantity direction pre post n
                Hs Hsplit Hpre Hn) as [Herr _].
    rewrite Hok in Herr. discriminate.
  - unfold signal_copied. intros Hall.
    repeat (apply Forall_cons in Hall as [[? ?] Hall]).
    eexists _, _. by eapply OrderEvent_new_run.
Qed.

Lemma OrderEvent_new_succeeds_iff_witness :
  heap with_order !! 2%positive = Some the_order /\
  ((exists lo w',
      OrderEvent_new (PyRef 2%positive) (PyInt 10) (PyStr "SELL") with_order =
        (Ok (PyRef lo), w')) <->
   Forall (fun n => is_Some (obj_dict the_order !! n)) signal_copied).
Proof.
  assert (heap with_order !! 2%positive = Some the_order) as H1
    by (by vm_compute).
  split; [exact H1|].
  exact (OrderEvent_new_succeeds_iff with_order 2%positive the_order (PyInt 10)
           (PyStr "SELL") H1).
Defined.

(** X4. When the object passed as signal lacks one of the six attributes,
    [OrderEvent] raises [AttributeError] for the first one missing, in the
    order [symbol], [order_type], [stop_loss], [profit_target],
    [limit_price], [stop_price]; the signal is left as it was, and the
    identifier drawn for the order is spent. *)
Theorem OrderEvent_new_first_missing (w : World) (ls : loc) (s : Obj)
    (quantity direction : PyVal) (pre post : list string) (n : string) :
  heap w !! ls = Some s ->
  signal_copied = (pre ++ n :: post)%list ->
  Forall (fun m => is_Some (obj_dict s !! m)) pre ->
  obj_dict s !! n = None ->
  (OrderEvent_new (PyRef ls) quantity direction w).1 = Err (AttributeError n) /\
  heap (OrderEvent_new (PyRef ls) quantity direction w).2 !! ls = Some s /\
  drawn (OrderEvent_new (PyRef ls) quantity direction w).2 = S (drawn w).
Proof. apply OrderEvent_new_missing. Qed.

Lemma OrderEvent_new_first_missing_witness :
  heap with_action !! 1%positive = Some the_action /\
  Forall (fun m => is_Some (obj_dict the_action !! m)) ["symbol"] /\
  obj_dict the_action !! "order_type" = None /\
  (OrderEvent_new (PyRef 1%positive) (PyInt 50) (PyStr "BUY") with_action).1 =
    Err (AttributeError "order_type") /\
  heap (OrderEvent_new (PyRef 1%positive) (PyInt 50) (PyStr "BUY") with_action).2
    !! 1%positive = Some the_action /\
  drawn (OrderEvent_new (PyRef 1%positive) (PyInt 50) (PyStr "BUY") with_action).2 =
    S (drawn with_action).
Proof.
  assert (heap with_action !! 1%positive = Some the_action) as H1
    by (by vm_compute).
  assert (Forall (fun m => is_Some (obj_dict the_action !! m)) ["symbol"]) as H2
    by (constructor; [eexists; by vm_compute | constructor]).
  assert (obj_dict the_action !! "order_type" = None) as H3 by (by vm_compute).
  split; [exact H1|]. split; [exact H2|]. split; [exact H3|].
  exact (OrderEvent_new_first_missing with_action 1%positive the_action
           (PyInt 50) (PyStr "BUY") ["symbol"]
           ["stop_loss"; "profit_target"; "limit_price"; "stop_price"]
           "order_type" H1 eq_refl H2 H3).
Defined.

(** X5. A signal that is no object at all ([None], a number, a string)
    makes [OrderEvent] raise [AttributeError] for [symbol], the first
    attribute it reads; the identifier has been drawn by then. *)
Theorem OrderEvent_new_not_an_object (signal quantity direction : PyVal)
    (w : World) :
  (forall l, signal ≠ PyRef l) ->
  (OrderEvent_new signal quantity direction w).1 = Err (AttributeError "symbol") /\
  drawn (OrderEvent_new signal quantity direction w).2 = S (drawn w) /\
  stdout (OrderEvent_new signal quantity direction w).2 = stdout w.
Proof.
  intros Hx. unfold OrderEvent_new, OrderEvent_init.
  repeat py_step. by rewrite bind_getattr_not_object.
Qed.

Lemma OrderEvent_new_not_an_object_witness :
  (OrderEvent_new PyNone (PyInt 50) (PyStr "BUY") boot).1 =
    Err (AttributeError "symbol") /\
  drawn (OrderEvent_new PyNone (PyInt 50) (PyStr "BUY") boot).2 = S (drawn boot) /\
  stdout (OrderEvent_new PyNone (PyInt 50) (PyStr "BUY") boot).2 = stdout boot.
Proof.
  apply (OrderEvent_new_not_an_object PyNone (PyInt 50) (PyStr "BUY") boot).
  intros l. discriminate.
Defined.

(** ** What a construction leaves alone *)

Section Frame.
Context (l : loc) (o : Obj).

Abbreviation kept := (holds_at l o).

Lemma kept_setattr (self : loc) (n : string) (v : PyVal) :
  self ≠ l -> preserves kept (setattr self n v).
Proof.
  intros Hne w Hw. unfold setattr.
  destruct (heap w !! self) as [o'|]; [|done].
  unfold kept; simpl. by rewrite lookup_insert_ne.
Qed.

Lemma kept_uuid4 : preserves kept uuid4.
Proof. by intros w. Qed.

(** The statements of an [__init__] that runs on another object. *)
Ltac keep_object :=
  repeat first
    [ apply preserves_bind; [|intros ?]
    | apply kept_uuid4
    | apply preserves_getattr
    | apply preserves_ret
    | apply preserves_raise
    | by apply kept_setattr ].

Lemma kept_SignalEvent_init (self : loc) (symbol datetime signal_type : PyVal)
    (order_type limit_price stop_loss profit_target stop_price quantity
     strategy_id : option PyVal) :
  self ≠ l ->
  preserves kept
    (SignalEvent_init self symbol datetime signal_type order_type limit_price
       stop_loss profit_target stop_price quantity strategy_id).
Proof. intros Hne. unfold SignalEvent_init. keep_object. Qed.

Lemma kept_OrderEvent_init (self : loc) (signal quantity direction : PyVal) :
  self ≠ l -> preserves kept (OrderEvent_init self signal quantity direction).
Proof. intros Hne. unfold OrderEvent_init. keep_object. Qed.

Lemma kept_FillEvent_init (self : loc)
    (order timeindex price symbol exchange quantity direction : PyVal)
    (commission : option PyVal) :
  self ≠ l ->
  preserves kept
    (FillEvent_init self order timeindex price symbol exchange quantity
       direction commission).
Proof.
  intros Hne. unfold FillEvent_init, FillEvent_calculate_commission.
  destruct (default PyNone commission); keep_object.
Qed.

Lemma kept_apply_init (c : PyClass) (self : loc) (args : list PyVal) :
  self ≠ l -> preserves kept (apply_init c self args).
Proof.
  intros Hne. destruct c; simpl.
  - destruct args; [by apply kept_setattr | apply preserves_raise].
  - do 3 (destruct args as [|? args]; try apply preserves_raise).
    unfold ActionEvent_init. keep_object.
  - do 3 (destruct args as [|? args]; try apply preserves_raise).
    case_decide; [by apply kept_SignalEvent_init | apply preserves_raise].
  - do 4 (destruct args as [|? args]; try apply preserves_raise).
    by apply kept_OrderEvent_init.
  - do 7 (destruct args as [|? args]; try apply preserves_raise).
    case_decide; [by apply kept_FillEvent_init | apply preserves_raise].
Qed.

(** A class call: allocation at a fresh place, then an [__init__] on it. *)
Lemma kept_new {A} (c : PyClass) (init : loc -> Py A) (w : World) :
  (forall self, self ≠ l -> preserves kept (init self)) ->
  kept w ->
  kept ((self <- new_object c ;; init self ;;; ret (PyRef self)) w).2.
Proof.
  intros Hinit Hw. rewrite bind_new_object.
  assert (fresh (dom (heap w)) ≠ l) as Hne by (by eapply fresh_loc_ne).
  apply (preserves_bind kept (init _) (fun _ => ret (PyRef (fresh (dom (heap w)))))).
  - by apply Hinit.
  - intros _. apply preserves_ret.
  - unfold kept; simpl. by rewrite lookup_insert_ne.
Qed.

End Frame.

(** X6. No construction, whether it returns or raises, touches an object
    that is already there: after [C(args)] for any class and any arguments,
    and after each of the five constructors called with named arguments,
    every object of the heap is what it was (an order leaves its signal
    alone, also when the signal lacks an attribute and the order fails). *)
Theorem construction_frame (w : World) (l : loc) (o : Obj)
    (c : PyClass) (args : list PyVal)
    (a_symbol a_action_type : PyVal)
    (s_symbol s_datetime s_signal_type : PyVal)
    (s_order_type s_limit_price s_stop_loss s_profit_target s_stop_price
     s_quantity s_strategy_id : option PyVal)
    (o_signal o_quantity o_direction : PyVal)
    (f_order f_timeindex f_price f_symbol f_exchange f_quantity f_direction : PyVal)
    (f_commission : option PyVal) :
  heap w !! l = Some o ->
  heap (construct c args w).2 !! l = Some o /\
  heap (MarketEvent_new w).2 !! l = Some o /\
  heap (ActionEvent_new a_symbol a_action_type w).2 !! l = Some o /\
  heap (SignalEvent_new s_symbol s_datetime s_signal_type s_order_type
          s_limit_price s_stop_loss s_profit_target s_stop_price s_quantity
          s_strategy_id w).2 !! l = Some o /\
  heap (OrderEvent_new o_signal o_quantity o_direction w).2 !! l = Some o /\
  heap (FillEvent_new f_order f_timeindex f_price f_symbol f_exchange
          f_quantity f_direction f_commission w).2 !! l = Some o.
Proof.
  intros Hw.
  split; [apply (kept_new l o c (fun self => apply_init c self args));
          [intros; by apply kept_apply_init | done]|].
  split; [apply (kept_new l o MarketEvent MarketEvent_init);
          [intros; by apply kept_setattr | done]|].
  split; [apply (kept_new l o ActionEvent
                   (fun self => ActionEvent_init self a_symbol a_action_type));
          [intros; by apply (kept_apply_init l o ActionEvent _
                               [a_symbol; a_action_type]) | done]|].
  split; [apply (kept_new l o SignalEvent
                   (fun self => SignalEvent_init self _ _ _ _ _ _ _ _ _ _));
          [intros; by apply kept_SignalEvent_init | done]|].
  split; [apply (kept_new l o OrderEvent
                   (fun self => OrderEvent_init self _ _ _));
          [intros; by apply kept_OrderEvent_init | done]|].
  apply (kept_new l o FillEvent (fun self => FillEvent_init self _ _ _ _ _ _ _ _));
    [intros; by apply kept_FillEvent_init | done].
Qed.

Lemma construction_frame_witness :
  heap with_order !! 1%positive = Some the_signal /\
  heap (construct OrderEvent [PyNone; PyInt 50; PyStr "BUY"] with_order).2
    !! 1%positive = Some the_signal /\
  heap (OrderEvent_new (PyRef 1%positive) (PyInt 50) (PyStr "BUY") with_order).2
    !! 1%positive = Some the_signal.
Proof.
  assert (heap with_order !! 1%positive = Some the_signal) as H1
    by (by vm_compute).
  split; [exact H1|].
  pose proof (construction_frame with_order 1%positive the_signal
    OrderEvent [PyNone; PyInt 50; PyStr "BUY"]
    (PyStr "GOOG") (PyStr "CLOSE_ALL")
    (PyStr "GOOG") (PyDatetime 0) (PyStr "LONG") None None None None None None None
    (PyRef 1%positive) (PyInt 50) (PyStr "BUY")
    (PyRef 2%positive) (PyDatetime 1) (PyFloat 100.25) (PyStr "GOOG")
    (PyStr "ARCA") (PyInt 50) (PyStr "BUY") None H1)
    as (Hc & _ & _ & _ & Ho & _).
  split; [exact Hc | exact Ho].
Defined.

(** ** What the module's own calls never do *)

Lemma elem_of_lifecycle (n : string) :
  n ∈ lifecycle <->
  n = "entry_price" \/ n = "exit_price" \/ n = "entry_time" \/
  n = "exit_time" \/ n = "profit".
Proof.
  unfold lifecycle. rewrite !elem_of_cons, elem_of_nil. tauto.
Qed.

Lemma sound_insert (c : PyClass) (dict : gmap string PyVal) (n : string)
    (v : PyVal) :
  sound (mkObj c dict) -> fits c n v -> sound (mkObj c (<[n := v]> dict)).
Proof.
  intros (Ht & Hc & Hid & Hl) (Ft & Fc & Fid & Fl).
  unfold sound; cbn [obj_dict obj_class] in *.
  split; [|split; [|split]].
  - intros v'. destruct (decide (n = "type")) as [->|Hne].
    + rewrite lookup_insert_eq. intros [= <-]. by apply Ft.
    + rewrite lookup_insert_ne by done. apply Ht.
  - intros v'. destruct (decide (n = "commission")) as [->|Hne].
    + rewrite lookup_insert_eq. intros [= <-]. by apply Fc.
    + rewrite lookup_insert_ne by done. apply Hc.
  - intros n' v' Hn'. destruct (decide (n = n')) as [->|Hne].
    + rewrite lookup_insert_eq. intros [= <-]. by apply Fid.
    + rewrite lookup_insert_ne by done. by apply Hid.
  - intros n' v' Hn'. destruct (decide (n = n')) as [->|Hne].
    + rewrite lookup_insert_eq. intros [= <-]. by apply Fl.
    + rewrite lookup_insert_ne by done. by apply Hl.
Qed.

Section Soundness.
Context (self : loc) (c : PyClass).

Lemma sound_setattr (n : string) (v : PyVal) :
  fits c n v -> preserves (sound_at self c) (setattr self n v).
Proof.
  intros Hfits w [Hw Hc]. unfold setattr.
  destruct (heap w !! self) as [[c' dict]|] eqn:Ho; [|done].
  unfold class_of in Hc. rewrite Ho in Hc. injection Hc as ->.
  split; unfold heap_sound, class_of, with_heap;
    cbn [snd heap obj_class obj_dict].
  - intros l o. destruct (decide (self = l)) as [<-|Hne].
    + rewrite lookup_insert_eq. intros [= <-].
      apply sound_insert; [by apply (Hw self)|done].
    + rewrite lookup_insert_ne by done. apply Hw.
  - by rewrite lookup_insert_eq.
Qed.

Lemma sound_bind_uuid4 {B} (k : PyVal -> Py B) :
  (forall u, preserves (sound_at self c) (k (PyUUID u))) ->
  preserves (sound_at self c) (bind uuid4 k).
Proof. intros Hk w Hw. by apply (Hk (urandom w (drawn w))). Qed.

Lemma preserves_bind_ret {A B} (P : World -> Prop) (a : A) (k : A -> Py B) :
  preserves P (k a) -> preserves P (bind (ret a) k).
Proof. intros Hk w Hw. by apply Hk. Qed.

Lemma sound_print (fmt : string) (args : list PyVal) :
  preserves (sound_at self c) (print fmt args).
Proof. by intros w. Qed.

End Soundness.

(** An assignment of the source respects [fits]. *)
Ltac fits_ok :=
  unfold fits; rewrite elem_of_lifecycle;
  repeat split; intros;
  first [ done | by eexists | intuition discriminate ].

(** The statements of an [__init__] run on [self]. *)
Ltac keep_sound :=
  repeat first
    [ apply sound_bind_uuid4; intros ?
    | apply preserves_bind_ret
    | apply preserves_bind; [|intros ?]
    | apply preserves_getattr
    | apply preserves_ret
    | apply preserves_raise
    | apply sound_setattr; fits_ok ].

Lemma sound_MarketEvent_init (self : loc) :
  preserves (sound_at self MarketEvent) (MarketEvent_init self).
Proof. unfold MarketEvent_init. keep_sound. Qed.

Lemma sound_ActionEvent_init (self : loc) (symbol action_type : PyVal) :
  preserves (sound_at self ActionEvent) (ActionEvent_init self symbol action_type).
Proof. unfold ActionEvent_init. keep_sound. Qed.

Lemma sound_SignalEvent_init (self : loc) (symbol datetime signal_type : PyVal)
    (order_type limit_price stop_loss profit_target stop_price quantity
     strategy_id : option PyVal) :
  preserves (sound_at self SignalEvent)
    (SignalEvent_init self symbol datetime signal_type order_type limit_price
       stop_loss profit_target stop_price quantity strategy_id).
Proof. unfold SignalEvent_init. keep_sound. Qed.

Lemma sound_OrderEvent_init (self : loc) (signal quantity direction : PyVal) :
  preserves (sound_at self OrderEvent)
    (OrderEvent_init self signal quantity direction).
Proof. unfold OrderEvent_init. keep_sound. Qed.

Lemma sound_FillEvent_init (self : loc)
    (order timeindex price symbol exchange quantity direction : PyVal)
    (commission : option PyVal) :
  preserves (sound_at self FillEvent)
    (FillEvent_init self order timeindex price symbol exchange quantity
       direction commission).
Proof.
  unfold FillEvent_init, FillEvent_calculate_commission.
  destruct (default PyNone commission); keep_sound.
Qed.

Lemma sound_apply_init (self : loc) (c : PyClass) (args : list PyVal) :
  preserves (sound_at self c) (apply_init c self args).
Proof.
  destruct c; simpl.
  - destruct args; [apply sound_MarketEvent_init | apply preserves_raise].
  - do 3 (destruct args as [|? args]; try apply preserves_raise).
    apply sound_ActionEvent_init.
  - do 3 (destruct args as [|? args]; try apply preserves_raise).
    case_decide; [apply sound_SignalEvent_init | apply preserves_raise].
  - do 4 (destruct args as [|? args]; try apply preserves_raise).
    apply sound_OrderEvent_init.
  - do 7 (destruct args as [|? args]; try apply preserves_raise).
    case_decide; [apply sound_FillEvent_init | apply preserves_raise].
Qed.

Lemma sound_print_order (self : loc) (c : PyClass) :
  preserves (sound_at self c) (OrderEvent_print_order self).
Proof.
  unfold OrderEvent_print_order.
  repeat first [ apply preserves_bind; [|intros ?] | apply preserves_getattr
               | apply sound_print | apply preserves_ret ].
Qed.

Lemma sound_empty (c : PyClass) : sound (mkObj c ∅).
Proof.
  unfold sound; cbn [obj_dict obj_class].
  repeat split; intros; by rewrite lookup_empty in *.
Qed.

Lemma heap_sound_construct (c : PyClass) (args : list PyVal) :
  preserves heap_sound (construct c args).
Proof.
  intros w Hw. unfold construct. rewrite bind_new_object.
  set (self := fresh (dom (heap w))).
  assert (sound_at self c
            (mkWorld (<[self := mkObj c ∅]> (heap w)) (urandom w) (drawn w)
               (stdout w))) as Hnew.
  { split; unfold heap_sound, class_of; cbn [heap].
    - intros l o. destruct (decide (self = l)) as [<-|Hne].
      + rewrite lookup_insert_eq. intros [= <-]. apply sound_empty.
      + rewrite lookup_insert_ne by done. apply Hw.
    - by rewrite lookup_insert_eq. }
  apply (preserves_bind (sound_at self c) (apply_init c self args)
           (fun _ => ret (PyRef self))) in Hnew.
  - by destruct Hnew.
  - apply sound_apply_init.
  - intros _. apply preserves_ret.
Qed.

Lemma heap_sound_call_method (self : loc) (name : string) (args : list PyVal) :
  preserves heap_sound (call_method self name args).
Proof.
  intros w Hw. unfold call_method.
  destruct (heap w !! self) as [o|] eqn:Ho; [|done].
  destruct (obj_dict o !! name); [done|].
  assert (sound_at self (obj_class o) w) as Hat.
  { split; [done|]. unfold class_of. by rewrite Ho. }
  destruct (class_method (obj_class o) name) as [[]|]; [| | |done]; simpl.
  - apply (preserves_bind (sound_at self (obj_class o))
             (apply_init (obj_class o) self args) (fun _ => ret PyNone)) in Hat.
    + by destruct Hat.
    + apply sound_apply_init.
    + intros _. apply preserves_ret.
  - destruct args; [|done].
    by destruct (sound_print_order self (obj_class o) w Hat).
  - by destruct args.
Qed.

Lemma heap_sound_exec (call : Call) : preserves heap_sound (exec call).
Proof.
  destruct call; [apply heap_sound_construct | apply heap_sound_call_method].
Qed.

Lemma heap_sound_calls (cs : list Call) (w : World) :
  heap_sound w -> heap_sound (run cs w).
Proof.
  revert w. induction cs as [|call cs IH]; intros w Hw; [done|].
  simpl. apply IH. by apply heap_sound_exec.
Qed.

(** X7. Whatever classes a client calls and whatever methods of the module
    it calls ([__init__] run again, [print_order], [calculate_commission],
    or a name that nothing defines), in whatever order and with whatever
    arguments, failing calls included, every object stays sound: a [type] is
    the tag of its object's class, a [commission] is never [None], an
    [order_id] or [fill_id] is a UUID, and the lifecycle attributes are
    [None]; the module's own code never records an entry, an exit or a
    profit. Assignments from outside the module, [__setattr__] among them,
    are not calls of this kind. *)
Theorem heap_sound_run (cs : list Call) (w : World) :
  Forall own_call cs -> heap_sound w -> heap_sound (run cs w).
Proof. intros _. apply heap_sound_calls. Qed.

Lemma heap_sound_run_witness :
  Forall own_call more_calls /\ heap_sound boot /\
  heap_sound (run more_calls boot).
Proof.
  assert (Forall own_call more_calls) as Hown
    by (repeat (constructor; [by vm_compute|]); constructor).
  assert (heap_sound boot) as H0.
  { intros l o Hl. vm_compute in Hl. discriminate Hl. }
  split; [exact Hown|]. split; [exact H0|].
  exact (heap_sound_run more_calls boot Hown H0).
Defined.


(** ** How a class call ends *)

Lemma OrderEvent_new_dangling (l : loc) (quantity direction : PyVal) (w : World) :
  heap w !! l = None ->
  (OrderEvent_new (PyRef l) quantity direction w).1 = Err (AttributeError "symbol").
Proof.
  intros Hl. unfold OrderEvent_new, OrderEvent_init. repeat py_step.
  unfold bind, getattr; cbn [heap].
  destruct (decide (fresh (dom (heap w)) = l)) as [<-|Hne].
  - rewrite lookup_insert_eq; cbn [obj_dict]. by simplify_map_eq.
  - rewrite lookup_insert_ne by done. by rewrite Hl.
Qed.

Lemma OrderEvent_new_outcome (signal quantity direction : PyVal) (w : World) :
  match (OrderEvent_new signal quantity direction w).1 with
  | Ok v => v = PyRef (fresh (dom (heap w)))
  | Err e => exists n, n ∈ signal_copied /\ e = AttributeError n
  end.
Proof.
  assert (forall n, n ∈ signal_copied <->
            n = "symbol" \/ n = "order_type" \/ n = "stop_loss" \/
            n = "profit_target" \/ n = "limit_price" \/ n = "stop_price")
    as Hin.
  { intros n. unfold signal_copied. rewrite !elem_of_cons, elem_of_nil. tauto. }
  assert ((exists l, signal = PyRef l) \/ (forall l, signal ≠ PyRef l))
    as [[l ->]|Hno] by (destruct signal; eauto; right; intros; discriminate).
  - destruct (heap w !! l) as [s|] eqn:Hs.
    + destruct (decide (Forall (fun n => is_Some (obj_dict s !! n)) signal_copied))
        as [Hall|Hnot].
      * unfold signal_copied in Hall.
        repeat (apply Forall_cons in Hall as [[? ?] Hall]).
        by erewrite OrderEvent_new_run.
      * apply not_Forall_Exists in Hnot; [|apply _].
        apply Exists_exists in Hnot as (n & Hn & Hmiss).
        assert (exists pre m post,
                  signal_copied = (pre ++ m :: post)%list /\
                  Forall (fun k => is_Some (obj_dict s !! k)) pre /\
                  obj_dict s !! m = None) as (pre & m & post & Hsplit & Hpre & Hm).
        { clear -Hn Hmiss. induction signal_copied as [|a rest IH]; [by apply elem_of_nil in Hn|].
          destruct (obj_dict s !! a) eqn:Ha.
          - apply elem_of_cons in Hn as [->|Hn].
            + destruct Hmiss. by rewrite Ha.
            + destruct (IH Hn) as (pre & m & post & -> & Hpre & Hm).
              exists (a :: pre), m, post. split; [done|].
              split; [|done]. constructor; [by rewrite Ha | done].
          - exists [], a, rest. split; [done|]. split; [constructor | done]. }
        destruct (OrderEvent_new_missing w l s quantity direction pre post m
                    Hs Hsplit Hpre Hm) as [-> _].
        exists m. split; [|done]. rewrite Hsplit. apply elem_of_app. right.
        apply elem_of_cons. by left.
    + rewrite OrderEvent_new_dangling by done.
      exists "symbol". split; [apply Hin; tauto | done].
  - assert ((OrderEvent_new signal quantity direction w).1 =
            Err (AttributeError "symbol")) as ->.
    { unfold OrderEvent_new, OrderEvent_init. repeat py_step.
      by rewrite bind_getattr_not_object. }
    exists "symbol". split; [apply Hin; tauto | done].
Qed.

Lemma construct_raises (c : PyClass) (args : list PyVal) (w : World) :
  apply_init c (fresh (dom (heap w))) args = raise (TypeError "__init__") ->
  (construct c args w).1 = Err (TypeError "__init__").
Proof. intros Hinit. unfold construct. rewrite bind_new_object. by rewrite Hinit. Qed.

Lemma construct_returns (c : PyClass) (args : list PyVal) (w w' : World) :
  apply_init c (fresh (dom (heap w))) args
    (mkWorld (<[fresh (dom (heap w)) := mkObj c ∅]> (heap w))
       (urandom w) (drawn w) (stdout w)) = (Ok tt, w') ->
  (construct c args w).1 = Ok (PyRef (fresh (dom (heap w)))).
Proof.
  intros Hinit. unfold construct. rewrite bind_new_object.
  unfold bind. by rewrite Hinit.
Qed.

(** X8. How [C(args)] ends, for every class and every list of positional
    arguments: it returns a reference to a new object only when the number of
    arguments fits the signature of [C.__init__]; it raises [TypeError]
    exactly when that number does not fit; and the one other way to fail is
    an [OrderEvent] whose signal lacks an attribute, an [AttributeError]
    naming one of the six copied attributes. *)
Theorem construct_outcome (c : PyClass) (args : list PyVal) (w : World) :
  match (construct c args w).1 with
  | Ok v =>
      min_args c <= length args <= max_args c /\
      exists l, v = PyRef l /\ heap w !! l = None
  | Err e =>
      (~ (min_args c <= length args <= max_args c) /\ e = TypeError "__init__") \/
      (c = OrderEvent /\ length args = 3 /\
       exists n, n ∈ signal_copied /\ e = AttributeError n)
  end.
Proof.
  assert (forall P : Prop, P ->
            P /\ exists l, PyRef (fresh (dom (heap w))) = PyRef l /\
                           heap w !! l = None) as Hok.
  { intros P HP. split; [done|]. eexists. split; [done|apply fresh_loc_None]. }
  destruct c.
  - destruct args as [|a args].
    + erewrite construct_returns; [apply Hok; simpl; lia|].
      simpl. unfold MarketEvent_init. by repeat py_step.
    + rewrite construct_raises by done. left. split; [simpl; lia | done].
  - destruct args as [|a [|b [|c args]]];
      try (rewrite construct_raises by done; left; split; [simpl; lia | done]).
    erewrite construct_returns; [apply Hok; simpl; lia|].
    simpl. unfold ActionEvent_init. by repeat py_step.
  - destruct args as [|a [|b [|c opt]]];
      try (rewrite construct_raises by done; left; split; [simpl; lia | done]).
    destruct (decide (length opt <= 7)) as [Hlen|Hlen].
    + erewrite construct_returns; [apply Hok; simpl; lia|].
      simpl. rewrite decide_True by done.
      unfold SignalEvent_init. by repeat py_step.
    + rewrite construct_raises by (simpl; by rewrite decide_False).
      left. split; [simpl; lia | done].
  - destruct args as [|a [|b [|c [|e args]]]];
      try (rewrite construct_raises by done; left; split; [simpl; lia | done]).
    rewrite construct_OrderEvent.
    pose proof (OrderEvent_new_outcome a b c w) as Hout.
    destruct (OrderEvent_new a b c w).1 as [v|e].
    + subst v. apply Hok. simpl; lia.
    + right. by split.
  - destruct args as [|a1 [|a2 [|a3 [|a4 [|a5 [|a6 [|a7 opt]]]]]]];
      try (rewrite construct_raises by done; left; split; [simpl; lia | done]).
    destruct (decide (length opt <= 1)) as [Hlen|Hlen].
    + rewrite construct_FillEvent by done. rewrite FillEvent_new_run.
      apply Hok. simpl; lia.
    + rewrite construct_raises by (simpl; by rewrite decide_False).
      left. split; [simpl; lia | done].
Qed.

(** ** The attributes an event has *)

(** X9. What each constructor returns, in every state, carries exactly the
    attributes its [__init__] assigns: an OrderEvent built from an object with
    the six attributes it reads has its fifteen and so neither the signal's
    [datetime], [signal_type] or [strategy_id] nor a reference to the signal;
    a FillEvent has its ten. *)
Theorem constructed_attributes (w : World)
    (a_symbol a_action_type : PyVal)
    (s_symbol s_datetime s_signal_type : PyVal)
    (s_order_type s_limit_price s_stop_loss s_profit_target s_stop_price
     s_quantity s_strategy_id : option PyVal)
    (o_quantity o_direction : PyVal)
    (f_order f_timeindex f_price f_symbol f_exchange f_quantity f_direction : PyVal)
    (f_commission : option PyVal) :
  returns_instance MarketEvent_new w MarketEvent /\
  returns_instance (ActionEvent_new a_symbol a_action_type) w ActionEvent /\
  returns_instance
    (SignalEvent_new s_symbol s_datetime s_signal_type s_order_type
       s_limit_price s_stop_loss s_profit_target s_stop_price s_quantity
       s_strategy_id) w SignalEvent /\
  (forall ls s,
     heap w !! ls = Some s ->
     Forall (fun n => is_Some (obj_dict s !! n)) signal_copied ->
     returns_instance (OrderEvent_new (PyRef ls) o_quantity o_direction) w
       OrderEvent) /\
  returns_instance
    (FillEvent_new f_order f_timeindex f_price f_symbol f_exchange f_quantity
       f_direction f_commission) w FillEvent.
Proof.
  refine (conj _ (conj _ (conj _ (conj _ _)))).
  - eexists _, _, _. split; [apply MarketEvent_new_run|].
    split; [apply lookup_insert_eq | apply MarketEvent_dict_instance].
  - eexists _, _, _. split; [apply ActionEvent_new_run|].
    split; [apply lookup_insert_eq | apply ActionEvent_dict_instance].
  - eexists _, _, _. split; [apply SignalEvent_new_run|].
    split; [apply lookup_insert_eq | apply SignalEvent_dict_instance].
  - intros ls s Hs Hall. unfold signal_copied in Hall.
    repeat (apply Forall_cons in Hall as [[? ?] Hall]).
    eexists _, _, _. split; [by eapply OrderEvent_new_run|].
    split; [apply lookup_insert_eq | apply OrderEvent_dict_instance].
  - eexists _, _, _. split; [apply FillEvent_new_run|].
    split; [apply lookup_insert_eq | apply FillEvent_dict_instance].
Qed.

Lemma constructed_attributes_witness :
  returns_instance MarketEvent_new boot MarketEvent /\
  returns_instance
    (FillEvent_new PyNone (PyDatetime 1) (PyFloat 100.25) (PyStr "GOOG")
       (PyStr "ARCA") (PyInt 50) (PyStr "BUY") None) boot FillEvent /\
  heap with_signal !! 1%positive = Some the_signal /\
  Forall (fun n => is_Some (obj_dict the_signal !! n)) signal_copied /\
  returns_instance (OrderEvent_new (PyRef 1%positive) (PyInt 50) (PyStr "BUY"))
    with_signal OrderEvent.
Proof.
  assert (heap with_signal !! 1%positive = Some the_signal) as H1
    by (by vm_compute).
  assert (Forall (fun n => is_Some (obj_dict the_signal !! n)) signal_copied)
    as H2 by (repeat (constructor; [eexists; by vm_compute|]); constructor).
  pose proof (constructed_attributes boot
    (PyStr "GOOG") (PyStr "CLOSE_ALL")
    (PyStr "GOOG") (PyDatetime 0) (PyStr "LONG") None None None None None None None
    (PyInt 50) (PyStr "BUY")
    PyNone (PyDatetime 1) (PyFloat 100.25) (PyStr "GOOG")
    (PyStr "ARCA") (PyInt 50) (PyStr "BUY") None)
    as (Hmarket & _ & _ & _ & Hfill).
  pose proof (constructed_attributes with_signal
    (PyStr "GOOG") (PyStr "CLOSE_ALL")
    (PyStr "GOOG") (PyDatetime 0) (PyStr "LONG") None None None None None None None
    (PyInt 50) (PyStr "BUY")
    PyNone (PyDatetime 1) (PyFloat 100.25) (PyStr "GOOG")
    (PyStr "ARCA") (PyInt 50) (PyStr "BUY") None)
    as (_ & _ & _ & Horder & _).
  split; [exact Hmarket|]. split; [exact Hfill|].
  split; [exact H1|]. split; [exact H2|].
  exact (Horder 1%positive the_signal H1 H2).
Defined.

(** ** Identifiers, one call of the library each *)

(** X10. An order and then a fill of it call [uuid.uuid4] once each and in
    that order: the order's [order_id] is what the first call returns and the
    fill's [fill_id] what the second returns; building the fill leaves the
    order's identifier as it was, and two calls have been made in all. *)
Theorem identifiers_follow_draws (w : World) (ls : loc) (s : Obj)
    (quantity direction : PyVal)
    (timeindex price symbol exchange f_quantity f_direction : PyVal)
    (commission : option PyVal) :
  heap w !! ls = Some s ->
  Forall (fun n => is_Some (obj_dict s !! n)) signal_copied ->
  exists lo w1 lf w2,
    OrderEvent_new (PyRef ls) quantity direction w = (Ok (PyRef lo), w1) /\
    FillEvent_new (PyRef lo) timeindex price symbol exchange f_quantity
      f_direction commission w1 = (Ok (PyRef lf), w2) /\
    attr w1 lo "order_id" = Some (PyUUID (urandom w (drawn w))) /\
    attr w2 lo "order_id" = Some (PyUUID (urandom w (drawn w))) /\
    attr w2 lf "fill_id" = Some (PyUUID (urandom w (S (drawn w)))) /\
    drawn w1 = S (drawn w) /\
    drawn w2 = S (S (drawn w)).
Proof.
  intros Hs Hall. unfold signal_copied in Hall.
  repeat (apply Forall_cons in Hall as [[? ?] Hall]).
  eexists _, _, _, _. split; [by eapply OrderEvent_new_run|].
  split; [apply FillEvent_new_run|].
  cbn [heap urandom drawn stdout]. unfold attr; cbn [heap].
  rewrite (lookup_insert_ne _ (fresh (dom (<[_ := _]> _))) (fresh (dom (heap w))))
    by (eapply fresh_loc_ne; apply lookup_insert_eq).
  rewrite !lookup_insert_eq. cbn [obj_dict mbind option_bind].
  assert (forall id a b c d e f g h i,
            OrderEvent_dict id a b c d e f g h !! "order_id" = Some id /\
            FillEvent_dict id a b c d e f g i !! "fill_id" = Some id) as Hid.
  { intros. unfold OrderEvent_dict, FillEvent_dict. split; by simplify_map_eq. }
  rewrite (proj1 (Hid _ _ _ _ _ _ _ _ _ PyNone)).
  rewrite (proj2 (Hid _ _ _ _ _ _ _ _ PyNone _)).
  by repeat split.
Qed.

Lemma identifiers_follow_draws_witness :
  heap with_signal !! 1%positive = Some the_signal /\
  Forall (fun n => is_Some (obj_dict the_signal !! n)) signal_copied /\
  exists lo w1 lf w2,
    OrderEvent_new (PyRef 1%positive) (PyInt 50) (PyStr "BUY") with_signal =
      (Ok (PyRef lo), w1) /\
    FillEvent_new (PyRef lo) (PyDatetime 1) (PyFloat 100.25) (PyStr "GOOG")
      (PyStr "ARCA") (PyInt 50) (PyStr "BUY") None w1 = (Ok (PyRef lf), w2) /\
    attr w1 lo "order_id" =
      Some (PyUUID (urandom with_signal (drawn with_signal))) /\
    attr w2 lo "order_id" =
      Some (PyUUID (urandom with_signal (drawn with_signal))) /\
    attr w2 lf "fill_id" =
      Some (PyUUID (urandom with_signal (S (drawn with_signal)))) /\
    drawn w1 = S (drawn with_signal) /\
    drawn w2 = S (S (drawn with_signal)).
Proof.
  assert (heap with_signal !! 1%positive = Some the_signal) as H1
    by (by vm_compute).
  assert (Forall (fun n => is_Some (obj_dict the_signal !! n)) signal_copied)
    as H2 by (repeat (constructor; [eexists; by vm_compute|]); constructor).
  split; [exact H1|]. split; [exact H2|].
  exact (identifiers_follow_draws with_signal 1%positive the_signal (PyInt 50)
           (PyStr "BUY") (PyDatetime 1) (PyFloat 100.25) (PyStr "GOOG")
           (PyStr "ARCA") (PyInt 50) (PyStr "BUY") None H1 H2).
Defined.

(** ** Which class answers to which method *)

(** X11. [print_order] is a method of OrderEvent alone and
    [calculate_commission] of FillEvent alone: called on an event of another
    class each raises [AttributeError], called with an argument each raises
    [TypeError], and [fill.calculate_commission()] returns 0 whatever the
    fill holds; in each case the state is as it was. *)
Theorem methods_by_class (w : World) (l : loc) (o : Obj) (c : PyClass)
    (args : list PyVal) :
  heap w !! l = Some o ->
  instance_of c o ->
  (c ≠ OrderEvent ->
     call_method l "print_order" args w = (Err (AttributeError "print_order"), w)) /\
  (c ≠ FillEvent ->
     call_method l "calculate_commission" args w =
       (Err (AttributeError "calculate_commission"), w)) /\
  (c = FillEvent ->
     call_method l "calculate_commission" [] w = (Ok (PyInt 0), w)) /\
  (c = OrderEvent -> args ≠ [] ->
     call_method l "print_order" args w = (Err (TypeError "print_order"), w)) /\
  (c = FillEvent -> args ≠ [] ->
     call_method l "calculate_commission" args w =
       (Err (TypeError "calculate_commission"), w)).
Proof.
  intros Hl Hinst.
  pose proof (instance_no_method_attr c o "print_order" Hinst (or_introl eq_refl))
    as Hp.
  pose proof (instance_no_method_attr c o "calculate_commission" Hinst
                (or_intror eq_refl)) as Hc.
  destruct Hinst as [<- _]. unfold call_method. rewrite Hl, Hp, Hc.
  repeat split.
  - intros Hne. by destruct (obj_class o).
  - intros Hne. by destruct (obj_class o).
  - by intros ->.
  - intros -> Hargs. by destruct args.
  - intros -> Hargs. by destruct args.
Qed.

Lemma methods_by_class_witness :
  heap with_order !! 1%positive = Some the_signal /\
  instance_of SignalEvent the_signal /\
  call_method 1%positive "print_order" [] with_order =
    (Err (AttributeError "print_order"), with_order) /\
  call_method 1%positive "calculate_commission" [] with_order =
    (Err (AttributeError "calculate_commission"), with_order).
Proof.
  assert (heap with_order !! 1%positive = Some the_signal) as H1
    by (by vm_compute).
  assert (instance_of SignalEvent the_signal) as H2
    by apply SignalEvent_dict_instance.
  split; [exact H1|]. split; [exact H2|].
  pose proof (methods_by_class with_order 1%positive the_signal SignalEvent []
                H1 H2) as (Hp & Hc & _).
  split; [apply Hp | apply Hc]; discriminate.
Defined.

(** ** The attributes an event keeps *)

(** [n] is one of the attributes listed. *)
Ltac in_attrs :=
  unfold class_attrs, signal_copied, lifecycle; simpl;
  repeat first [ apply list_elem_of_here | apply list_elem_of_further ].

Section Shape.
Context (l : loc) (c : PyClass).

Lemma shape_setattr (self : loc) (n : string) (v : PyVal) :
  (self = l -> n ∈ class_attrs c) ->
  preserves (is_instance l c) (setattr self n v).
Proof.
  intros Hn w (o & Hl & Hc & Hdom). unfold setattr.
  destruct (heap w !! self) as [o'|] eqn:Ho; [|by exists o].
  unfold is_instance, with_heap; cbn [snd heap].
  destruct (decide (self = l)) as [->|Hne].
  - rewrite Hl in Ho. injection Ho as <-.
    eexists. split; [apply lookup_insert_eq|].
    split; [done|]. cbn [obj_dict]. rewrite dom_insert_L, Hdom.
    apply subseteq_union_1_L, singleton_subseteq_l, elem_of_list_to_set.
    by apply Hn.
  - exists o. by rewrite lookup_insert_ne.
Qed.

Lemma shape_uuid4 : preserves (is_instance l c) uuid4.
Proof. by intros w. Qed.

Lemma shape_print (fmt : string) (args : list PyVal) :
  preserves (is_instance l c) (print fmt args).
Proof. by intros w. Qed.

Lemma shape_new_object (c' : PyClass) (w : World) :
  is_instance l c w ->
  is_instance l c (new_object c' w).2 /\ fresh (dom (heap w)) ≠ l.
Proof.
  intros (o & Hl & Hinst).
  assert (fresh (dom (heap w)) ≠ l) as Hne by (by eapply fresh_loc_ne).
  split; [|done]. exists o. unfold new_object, with_heap; cbn [snd heap].
  by rewrite lookup_insert_ne.
Qed.

End Shape.

(** The statements of the [__init__] of class [X], run on [self], with
    [Hc : self = l -> X = c] at hand. *)
Ltac keep_shape Hc :=
  repeat first
    [ apply preserves_bind; [|intros ?]
    | apply shape_uuid4
    | apply preserves_getattr
    | apply preserves_ret
    | apply preserves_raise
    | apply shape_setattr;
      let Heq := fresh in intros Heq; rewrite <- (Hc Heq); in_attrs ].

Lemma shape_apply_init (l : loc) (c c' : PyClass) (self : loc)
    (args : list PyVal) :
  (self = l -> c' = c) ->
  preserves (is_instance l c) (apply_init c' self args).
Proof.
  intros Hc. destruct c'; simpl.
  - destruct args; [|apply preserves_raise].
    unfold MarketEvent_init. keep_shape Hc.
  - do 3 (destruct args as [|? args]; try apply preserves_raise).
    unfold ActionEvent_init. keep_shape Hc.
  - do 3 (destruct args as [|? args]; try apply preserves_raise).
    case_decide; [|apply preserves_raise].
    unfold SignalEvent_init. keep_shape Hc.
  - do 4 (destruct args as [|? args]; try apply preserves_raise).
    unfold OrderEvent_init. keep_shape Hc.
  - do 7 (destruct args as [|? args]; try apply preserves_raise).
    case_decide; [|apply preserves_raise].
    unfold FillEvent_init, FillEvent_calculate_commission.
    destruct (default PyNone (args !! 0)); keep_shape Hc.
Qed.

Lemma shape_print_order (l : loc) (c : PyClass) (self : loc) :
  preserves (is_instance l c) (OrderEvent_print_order self).
Proof.
  unfold OrderEvent_print_order.
  repeat first [ apply preserves_bind; [|intros ?] | apply preserves_getattr
               | apply shape_print | apply preserves_ret ].
Qed.

Lemma shape_exec (l : loc) (c : PyClass) (call : Call) :
  preserves (is_instance l c) (exec call).
Proof.
  destruct call as [c' args|self name args]; intros w Hw; simpl.
  - destruct (shape_new_object l c c' w Hw) as [Hw' Hne].
    unfold construct. rewrite bind_new_object.
    apply (preserves_bind (is_instance l c) (apply_init c' _ args)
             (fun _ => ret (PyRef (fresh (dom (heap w)))))); [| |exact Hw'].
    + by apply shape_apply_init.
    + intros _. apply preserves_ret.
  - unfold call_method.
    destruct (heap w !! self) as [o|] eqn:Ho; [|done].
    destruct (obj_dict o !! name); [done|].
    destruct (class_method (obj_class o) name) as [[]|]; [| | |done]; simpl.
    + apply (preserves_bind (is_instance l c)); [| |done].
      * apply shape_apply_init. intros ->.
        destruct Hw as (o' & Hl & Hc & _). rewrite Ho in Hl. by injection Hl as ->.
      * intros _. apply preserves_ret.
    + destruct args; [by apply shape_print_order | done].
    + by destruct args.
Qed.

Lemma instance_calls (l : loc) (c : PyClass) (cs : list Call) (w : World) :
  is_instance l c w -> is_instance l c (run cs w).
Proof.
  revert w. induction cs as [|call cs IH]; intros w Hw; [done|].
  simpl. apply IH. by apply shape_exec.
Qed.

(** X12. An event keeps its class and exactly the attributes it was built
    with under every later class call and every later call of a method of the
    module ([__init__] run again, [print_order], [calculate_commission], or
    a name that nothing defines): the module's own code adds no attribute to
    an existing event and takes none away. [__setattr__] and [__delattr__],
    inherited from [object], are not calls of this kind. *)
Theorem instance_kept (l : loc) (c : PyClass) (cs : list Call) (w : World) :
  Forall own_call cs -> is_instance l c w -> is_instance l c (run cs w).
Proof. intros _. apply instance_calls. Qed.

Lemma instance_kept_witness :
  Forall own_call more_calls /\
  is_instance 2%positive OrderEvent with_order /\
  is_instance 2%positive OrderEvent (run more_calls with_order).
Proof.
  assert (Forall own_call more_calls) as Hown
    by (repeat (constructor; [by vm_compute|]); constructor).
  assert (is_instance 2%positive OrderEvent with_order) as H1.
  { exists the_order. split; [by vm_compute | apply OrderEvent_dict_instance]. }
  split; [exact Hown|]. split; [exact H1|].
  exact (instance_kept 2%positive OrderEvent more_calls with_order Hown H1).
Defined.
